(** * Model-source registry: a shallow embedding of [main.py] and [schemas.py]

    The backend keeps two MongoDB collections, [modelfile] and
    [modelconfig], and four registry endpoints over them.  Documents are
    finite maps from field names to BSON values, the store is threaded
    through an exception/state monad, and every handler is transcribed
    statement by statement. *)

From Stdlib Require Import ZArith NArith Ascii String List.
From Stdlib Require Strings.Byte.
From stdpp Require Import gmap strings list fin_maps sorting pretty.

Local Open Scope Z_scope.

(** ** BSON values and MongoDB's sort order *)

(** The values a Python dictionary of this program holds.  All are BSON
    values but the last: a pydantic URL object, which a dumped model keeps
    as it is and which the driver's BSON encoder refuses. *)
Inductive value :=
  | VNull
  | VBool (b : bool)
  | VInt (z : Z)
  | VStr (s : string)
  | VDate (t : Z)
  | VOid (n : N)
  | VUrl (u : string).

#[global] Instance value_eq_dec : EqDecision value.
Proof. solve_decision. Defined.

(** A returned or inserted dictionary. *)
Abbreviation pydict := (gmap string value).

Module Bson.

(** Rank of a BSON type in MongoDB's comparison order.  A field that is
    absent sorts as null.  (A URL object is no BSON value and is never
    stored; it is ranked with the absent field to keep the order total.) *)
Definition rank (v : option value) : Z :=
  match v with
  | None | Some VNull | Some (VUrl _) => 1
  | Some (VInt _) => 2
  | Some (VStr _) => 3
  | Some (VOid _) => 7
  | Some (VBool _) => 8
  | Some (VDate _) => 9
  end.

Definition same_type_leb (a b : option value) : bool :=
  match a, b with
  | Some (VInt x), Some (VInt y) => (x <=? y)%Z
  | Some (VStr x), Some (VStr y) => String.leb x y
  | Some (VOid x), Some (VOid y) => (x <=? y)%N
  | Some (VBool x), Some (VBool y) => implb x y
  | Some (VDate x), Some (VDate y) => (x <=? y)%Z
  | _, _ => true
  end.

Definition leb (a b : option value) : bool :=
  if (rank a <? rank b)%Z then true
  else if (rank b <? rank a)%Z then false
  else same_type_leb a b.

End Bson.

(** ** The Python values the handlers compute with *)

Module Py.

(** [str.lower()] on the code points that matter for the extension test:
    only [A]..[Z] change. *)
Definition lower_char (c : ascii) : ascii :=
  let n := N_of_ascii c in
  if ((65 <=? n) && (n <=? 90))%N then ascii_of_N (n + 32) else c.

Fixpoint lower (s : string) : string :=
  match s with
  | EmptyString => EmptyString
  | String c s' => String (lower_char c) (lower s')
  end.

(** [s.endswith(suffix)] *)
Definition endswith (s suffix : string) : bool :=
  let n := String.length s in
  let m := String.length suffix in
  if (m <=? n)%nat then String.eqb (substring (n - m) m s) suffix else false.

(** [x or d] on an [Optional[int]]: [None] and [0] are falsy. *)
Definition or_int (x : option Z) (d : Z) : Z :=
  match x with
  | None => d
  | Some 0 => d
  | Some n => n
  end.

(** [x or d] on an [Optional[str]]: [None] and the empty string are falsy. *)
Definition or_str (x : option string) (d : string) : string :=
  match x with
  | None => d
  | Some EmptyString => d
  | Some s => s
  end.

(** A [str] is kept as its UTF-8 text.  A byte [10xxxxxx] continues a
    code point; every other byte starts one. *)
Definition continues (c : ascii) : bool :=
  let n := N_of_ascii c in ((128 <=? n) && (n <? 192))%N.

(** [len(s)]: the number of code points. *)
Fixpoint len (s : string) : nat :=
  match s with
  | EmptyString => 0%nat
  | String c s' => if continues c then len s' else S (len s')
  end.

(** [s[:n]]: the first [n] code points, each with all its bytes. *)
Fixpoint slice_to (n : nat) (s : string) : string :=
  match s with
  | EmptyString => EmptyString
  | String c s' =>
      if continues c then String c (slice_to n s')
      else
        match n with
        | O => EmptyString
        | S n' => String c (slice_to n' s')
        end
  end.

(** [dict.get(k)]: [None] when the key is absent. *)
Definition get (d : pydict) (k : string) : value := default VNull (d !! k).

End Py.

(** ** [base64.b64encode] and [base64.b64decode] (RFC 4648, standard alphabet) *)

Module Base64.

Definition alphabet : string :=
  "ABCDEFGHIJKLMNOPQRSTUVWXYZabcdefghijklmnopqrstuvwxyz0123456789+/".

Definition pad : ascii := "="%char.

Definition digit (i : N) : ascii :=
  default pad (String.get (N.to_nat i) alphabet).

Fixpoint index_from (i : N) (c : ascii) (s : string) : option N :=
  match s with
  | EmptyString => None
  | String c' s' => if Ascii.eqb c c' then Some i else index_from (i + 1) c s'
  end.

Definition sextet (c : ascii) : option N := index_from 0 c alphabet.

(** Three octets packed into 24 bits, then cut into four sextets. *)
Definition pack3 (a b c : Byte.byte) : N :=
  (Byte.to_N a * 65536 + Byte.to_N b * 256 + Byte.to_N c)%N.

Definition byte_of (n : N) : Byte.byte := default Byte.x00 (Byte.of_N n).

Fixpoint b64encode (bs : list Byte.byte) : string :=
  match bs with
  | [] => EmptyString
  | [a] =>
      let n := pack3 a Byte.x00 Byte.x00 in
      String (digit (n / 262144)) (String (digit (n / 4096 mod 64))
        (String pad (String pad EmptyString)))
  | [a; b] =>
      let n := pack3 a b Byte.x00 in
      String (digit (n / 262144)) (String (digit (n / 4096 mod 64))
        (String (digit (n / 64 mod 64)) (String pad EmptyString)))
  | a :: b :: c :: rest =>
      let n := pack3 a b c in
      String (digit (n / 262144)) (String (digit (n / 4096 mod 64))
        (String (digit (n / 64 mod 64)) (String (digit (n mod 64))
          (b64encode rest))))
  end%N.

Definition unpack (n : N) : list Byte.byte :=
  [byte_of (n / 65536); byte_of (n / 256 mod 256); byte_of (n mod 256)]%N.

(** Strict decoding of a padded text: groups of four characters, padding
    only in the last group. *)
Fixpoint b64decode (s : string) : option (list Byte.byte) :=
  match s with
  | EmptyString => Some []
  | String c1 (String c2 (String c3 (String c4 rest))) =>
      match sextet c1, sextet c2 with
      | Some i1, Some i2 =>
          if Ascii.eqb c4 pad then
            match rest with
            | EmptyString =>
                if Ascii.eqb c3 pad then
                  Some (take 1 (unpack (i1 * 262144 + i2 * 4096)))
                else
                  match sextet c3 with
                  | Some i3 =>
                      Some (take 2 (unpack (i1 * 262144 + i2 * 4096 + i3 * 64)))
                  | None => None
                  end
            | _ => None
            end
          else
            match sextet c3, sextet c4, b64decode rest with
            | Some i3, Some i4, Some tl =>
                Some (unpack (i1 * 262144 + i2 * 4096 + i3 * 64 + i4) ++ tl)
            | _, _, _ => None
            end
      | _, _ => None
      end
  | _ => None
  end%N.

End Base64.

(** ** The document store *)

(** A stored document: MongoDB gives every document an [_id]; the other
    fields are kept as a dictionary. *)
Record document := Document { _id : N; fields : pydict }.

Record Database := MkDatabase {
  collections : gmap string (list document);
  next_oid : N
}.

Inductive store_call :=
  | UpdateMany (collection : string)
  | InsertOne (collection : string)
  | FindOne (collection : string)
  | Find (collection : string).

Inductive exn :=
  | HTTPException (status_code : Z) (detail : string)
  | StoreError (msg : string)
  | ValidationError (msg : string)
  | TypeError (msg : string)
  | InvalidDocument (msg : string).

(** What a handler runs in: the module-level [db] handle ([None] when the
    connection was never configured), the readings [datetime.now] will
    give, the failures the store will raise (by position of the call), and
    the store calls issued so far. *)
Record World := MkWorld {
  db : option Database;
  clock : nat -> Z;
  reads : nat;
  fault : nat -> option string;
  log : list store_call
}.

Inductive outcome (A : Type) :=
  | Return (a : A)
  | Raise (e : exn).
Arguments Return {A} a.
Arguments Raise {A} e.

Definition M (A : Type) : Type := World -> outcome A * World.

Definition ret {A} (a : A) : M A := fun w => (Return a, w).

Definition raise {A} (e : exn) : M A := fun w => (Raise e, w).

Definition bind {A B} (m : M A) (k : A -> M B) : M B := fun w =>
  match m w with
  | (Return a, w') => k a w'
  | (Raise e, w') => (Raise e, w')
  end.

(** [try: body except Exception as e: handler e] *)
Definition try_except {A} (body : M A) (handler : exn -> M A) : M A := fun w =>
  match body w with
  | (Return a, w') => (Return a, w')
  | (Raise e, w') => handler e w'
  end.

Notation "x <- m ;; k" := (bind m (fun x => k))
  (at level 100, m at next level, right associativity).
Notation "m ;;; k" := (bind m (fun _ => k))
  (at level 100, right associativity).

(** [str(e)]: a store error prints its message, an [HTTPException] prints
    as [status: detail]. *)
Definition str_exn (e : exn) : string :=
  match e with
  | HTTPException c d => pretty c +:+ ": " +:+ d
  | StoreError m | ValidationError m | TypeError m | InvalidDocument m => m
  end.

(** [datetime.now(timezone.utc)] *)
Definition datetime_now : M Z := fun w =>
  (Return (clock w (reads w)),
   MkWorld (db w) (clock w) (S (reads w)) (fault w) (log w)).

(** [db is None] *)
Definition db_is_None : M bool := fun w =>
  (Return (match db w with None => true | Some _ => false end), w).

Module Mongo.

(** [str(ObjectId)]: twenty-four hexadecimal digits. *)
Definition hex_digit (n : N) : ascii :=
  default "0"%char (String.get (N.to_nat n) "0123456789abcdef").

Definition str_oid (n : N) : string :=
  string_of_list_ascii
    (map (fun i : nat => hex_digit ((n / 16 ^ N.of_nat (23 - i)) mod 16)%N)
         (seq 0 24)).

Definition coll (d : Database) (name : string) : list document :=
  default [] (collections d !! name).

Definition set_coll (d : Database) (name : string) (l : list document)
  : Database :=
  MkDatabase (<[name := l]> (collections d)) (next_oid d).

(** An equality filter such as [{"active": True}]: every pair of the
    filter is a pair of the document.  [{}] matches everything. *)
Definition matches (flt : pydict) (d : document) : bool :=
  bool_decide (flt ⊆ fields d).

(** [{"$set": upd}] *)
Definition apply_set (upd : pydict) (d : document) : document :=
  Document (_id d) (upd ∪ fields d).

(** An exclusion projection such as [{"data_b64": 0}]. *)
Definition project_out (excluded : list string) (d : document) : document :=
  Document (_id d) (foldr delete (fields d) excluded).

(** Descending order on a field, as [sort(key, -1)] asks for. *)
Definition desc (key : string) (a b : document) : Prop :=
  Bson.leb (fields b !! key) (fields a !! key) = true.

Definition asc (key : string) (a b : document) : Prop :=
  Bson.leb (fields a !! key) (fields b !! key) = true.

#[global] Instance desc_dec key : RelDecision (desc key) :=
  fun a b => decide (Bson.leb (fields b !! key) (fields a !! key) = true).

#[global] Instance asc_dec key : RelDecision (asc key) :=
  fun a b => decide (Bson.leb (fields a !! key) (fields b !! key) = true).

Definition sorted (sort : option (string * Z)) (l : list document)
  : list document :=
  match sort with
  | None => l
  | Some (key, dir) =>
      if (dir <? 0)%Z then merge_sort (desc key) l
      else merge_sort (asc key) l
  end.

(** [limit(n)]: [0] is no limit, and a negative [n] asks for [|n|]
    documents. *)
Definition limited (n : Z) (l : list document) : list document :=
  if (n =? 0)%Z then l else take (Z.to_nat (Z.abs n)) l.

(** One round trip to the store: the call is recorded, then it either
    raises what the store raises or runs on the database. *)
Definition call {A} (c : store_call) (f : Database -> A * Database) : M A :=
  fun w =>
    match db w with
    | None => (Raise (TypeError "'NoneType' object is not subscriptable"), w)
    | Some d =>
        let lg := log w ++ [c] in
        match fault w (length (log w)) with
        | Some msg =>
            (Raise (StoreError msg),
             MkWorld (db w) (clock w) (reads w) (fault w) lg)
        | None =>
            let '(a, d') := f d in
            (Return a, MkWorld (Some d') (clock w) (reads w) (fault w) lg)
        end
    end.

(** [db[name].update_many(flt, {"$set": upd})]; the result is the number
    of matched documents. *)
Definition update_many (name : string) (flt upd : pydict) : M nat :=
  call (UpdateMany name) (fun d =>
    let l := coll d name in
    (length (List.filter (matches flt) l),
     set_coll d name
       (map (fun x => if matches flt x then apply_set upd x else x) l))).

(** What the driver's BSON encoder takes. *)
Definition is_bson (v : value) : bool :=
  match v with
  | VUrl _ => false
  | _ => true
  end.

Definition encodable (data : pydict) : bool :=
  bool_decide (map_Forall (fun _ v => is_bson v = true) data).

(** [db[name].insert_one(data)]; the result is the assigned [_id].  The
    document is encoded before anything is sent: one that cannot be encoded
    raises there, and no call reaches the store. *)
Definition insert_one (name : string) (data : pydict) : M N := fun w =>
  match db w with
  | None => (Raise (TypeError "'NoneType' object is not subscriptable"), w)
  | Some _ =>
      if encodable data then
        call (InsertOne name) (fun d =>
          (next_oid d,
           MkDatabase
             (<[name := coll d name ++ [Document (next_oid d) data]]>
                (collections d))
             (next_oid d + 1)%N)) w
      else (Raise (InvalidDocument "cannot encode object"), w)
  end.

(** [db[name].find_one(flt, sort=[(key, dir)])] *)
Definition find_one (name : string) (flt : pydict) (sort : option (string * Z))
  : M (option document) :=
  call (FindOne name) (fun d =>
    (head (sorted sort (List.filter (matches flt) (coll d name))), d)).

(** A cursor is a query under construction; nothing is sent before it is
    iterated. *)
Record cursor := Cursor {
  c_coll : string;
  c_filter : pydict;
  c_excluded : list string;
  c_sort : option (string * Z);
  c_limit : Z
}.

Definition find (name : string) (flt : pydict) (excluded : list string)
  : cursor :=
  Cursor name flt excluded None 0.

Definition sort (c : cursor) (key : string) (dir : Z) : cursor :=
  Cursor (c_coll c) (c_filter c) (c_excluded c) (Some (key, dir)) (c_limit c).

Definition limit (c : cursor) (n : Z) : cursor :=
  Cursor (c_coll c) (c_filter c) (c_excluded c) (c_sort c) n.

(** [for d in cursor] *)
Definition iterate (c : cursor) : M (list document) :=
  call (Find (c_coll c)) (fun d =>
    (map (project_out (c_excluded c))
       (limited (c_limit c)
          (sorted (c_sort c)
             (List.filter (matches (c_filter c)) (coll d (c_coll c))))),
     d)).

End Mongo.

(** ** schemas.py *)

(** What [create_document] needs of a pydantic model: its dictionary. *)
Class BaseModel (A : Type) := { model_dump : A -> pydict }.

Module ModelFile.

Record t := Make {
  name : string;
  size : Z;
  content_type : string;
  data_b64 : string;
  active : bool
}.

(** [ModelFile(name=.., size=.., ...)]: the one constraint is [size >= 0]. *)
Definition new (name : string) (size : Z) (content_type data_b64 : string)
    (active : bool) : M t :=
  if (size <? 0)%Z then
    raise (ValidationError "size: Input should be greater than or equal to 0")
  else ret (Make name size content_type data_b64 active).

#[global] Instance base_model : BaseModel t := {|
  model_dump m :=
    {[ "name" := VStr (name m);
       "size" := VInt (size m);
       "content_type" := VStr (content_type m);
       "data_b64" := VStr (data_b64 m);
       "active" := VBool (active m) ]}
|}.

End ModelFile.

Module ModelConfig.

Record t := Make {
  source_type : string;
  url : option string;
  active : bool
}.

(** [ModelConfig(source_type=.., url=.., active=..)]: [url] is an
    [Optional[HttpUrl]], so a given text goes through the URL validator,
    which is pydantic's and is taken as a parameter. *)
Definition new (HttpUrl : string -> option string)
    (source_type : string) (url : option string) (active : bool) : M t :=
  match url with
  | None => ret (Make source_type None active)
  | Some s =>
      match HttpUrl s with
      | Some u => ret (Make source_type (Some u) active)
      | None => raise (ValidationError "url: Input should be a valid URL")
      end
  end.

(** The [url] attribute of the model: [None], or the URL object the
    validation made of the text. *)
Definition url_value (m : t) : value :=
  match url m with
  | Some u => VUrl u
  | None => VNull
  end.

#[global] Instance base_model : BaseModel t := {|
  model_dump m :=
    {[ "source_type" := VStr (source_type m);
       "url" := url_value m;
       "active" := VBool (active m) ]}
|}.

End ModelConfig.

(** ** database.py *)

(** Modelled from the spec: [create_document] is imported from database.py,
    which is not among the sources.  The spec gives the store client
    "insert-one(document) -> assigned id" (4.1), has the registry "insert
    the new file record" and "return the new record's id" (4.3), turns
    identifiers into strings (4.4) and has [updated_at] "set on every
    mutation" (3).  So: stamp the dictionary of the model with the current
    time, insert it, and give back the id as text. *)
Definition create_document {A} `{BaseModel A} (collection_name : string)
    (data : A) : M string :=
  t <- datetime_now ;;
  oid <- Mongo.insert_one collection_name
           (<["updated_at" := VDate t]> (model_dump data)) ;;
  ret (Mongo.str_oid oid).

(** ** main.py *)

Record UploadFile := MkUploadFile {
  filename : string;
  content_type : option string;
  content : list Byte.byte
}.

(** [await file.read()] *)
Definition read (file : UploadFile) : M (list Byte.byte) := ret (content file).

(** The filter and the update both activation handlers send. *)
Definition active_filter : pydict := {[ "active" := VBool true ]}.

Definition deactivation (now : Z) : pydict :=
  {[ "active" := VBool false; "updated_at" := VDate now ]}.

(** [upload_model], behind [POST /api/models]. *)
Definition upload_model (file : UploadFile) : M pydict :=
  if negb (Py.endswith (Py.lower (filename file)) ".zip") then
    raise (HTTPException 400 "File must be a .zip archive")
  else
    content <- read file ;;
    if (length content =? 0)%nat then
      raise (HTTPException 400 "Empty file")
    else
      try_except
        (let b64 := Base64.b64encode content in
         doc <- ModelFile.new (filename file) (Z.of_nat (length content))
                  (Py.or_str (content_type file) "application/zip") b64 true ;;
         none <- db_is_None ;;
         if none : bool then
           raise (HTTPException 500 "Database not available")
         else
           t1 <- datetime_now ;;
           Mongo.update_many "modelfile" active_filter (deactivation t1) ;;;
           t2 <- datetime_now ;;
           Mongo.update_many "modelconfig" active_filter (deactivation t2) ;;;
           inserted_id <- create_document "modelfile" doc ;;
           ret ({[ "id" := VStr inserted_id;
                   "type" := VStr "db";
                   "name" := VStr (ModelFile.name doc);
                   "size" := VInt (ModelFile.size doc);
                   "content_type" := VStr (ModelFile.content_type doc);
                   "active" := VBool true ]} : pydict))
        (fun e =>
           raise (HTTPException 500 ("Failed to store model: " +:+ str_exn e))).

Record UrlPayload := MkUrlPayload { url : string }.

(** [get_active_model], behind [GET /api/models/active]. *)
Definition get_active_model : M pydict :=
  none <- db_is_None ;;
  if none : bool then raise (HTTPException 500 "Database not available")
  else
    cfg <- Mongo.find_one "modelconfig" active_filter (Some ("updated_at", -1)) ;;
    match cfg with
    | Some cfg =>
        ret ({[ "type" := VStr "url";
                "url" := Py.get (fields cfg) "url";
                "active" := VBool true;
                "updated_at" := Py.get (fields cfg) "updated_at" ]} : pydict)
    | None =>
        doc <- Mongo.find_one "modelfile" active_filter
                 (Some ("updated_at", -1)) ;;
        match doc with
        | Some doc =>
            ret ({[ "type" := VStr "db";
                    "id" := VStr (Mongo.str_oid (_id doc));
                    "name" := Py.get (fields doc) "name";
                    "size" := Py.get (fields doc) "size";
                    "content_type" := Py.get (fields doc) "content_type";
                    "active" := VBool true;
                    "updated_at" := Py.get (fields doc) "updated_at" ]} : pydict)
        | None => ret ({[ "active" := VBool false ]} : pydict)
        end
    end.

(** One step of the loop in [list_models]:
    [d["id"] = str(d.pop("_id"))]. *)
Definition with_id (d : document) : pydict :=
  <["id" := VStr (Mongo.str_oid (_id d))]> (fields d).

(** [list_models], behind [GET /api/models]. *)
Definition list_models (limit : option Z) : M (list pydict) :=
  none <- db_is_None ;;
  if none : bool then raise (HTTPException 500 "Database not available")
  else
    let cursor :=
      Mongo.limit
        (Mongo.sort (Mongo.find "modelfile" ∅ ["data_b64"]) "updated_at" (-1))
        (Py.or_int limit 10) in
    ds <- Mongo.iterate cursor ;;
    ret (map with_id ds).

Inductive content_t :=
  | JDict (d : pydict)
  | JList (l : list pydict)
  | JDetail (detail : string)
  | JText (s : string).

Record Response := MkResponse { status : Z; body : content_t }.

(** What FastAPI makes of a handler's outcome: a returned value is a 200,
    an [HTTPException] is its own status with its detail, anything else is
    the server's plain 500. *)
Definition respond {A} (enc : A -> content_t) (m : M A)
    : World -> Response * World :=
  fun w =>
    match m w with
    | (Return a, w') => (MkResponse 200 (enc a), w')
    | (Raise (HTTPException c d), w') => (MkResponse c (JDetail d), w')
    | (Raise _, w') => (MkResponse 500 (JText "Internal Server Error"), w')
    end.

Section Registry.

(** pydantic's [HttpUrl]: the validated text of a URL, or nothing. *)
Variable HttpUrl : string -> option string.

(** [set_model_url], behind [POST /api/models/url]. *)
Definition set_model_url (payload : UrlPayload) : M pydict :=
  none <- db_is_None ;;
  if none : bool then raise (HTTPException 500 "Database not available")
  else
    t1 <- datetime_now ;;
    Mongo.update_many "modelfile" active_filter (deactivation t1) ;;;
    t2 <- datetime_now ;;
    Mongo.update_many "modelconfig" active_filter (deactivation t2) ;;;
    cfg <- ModelConfig.new HttpUrl "url" (Some (url payload)) true ;;
    cfg_id <- create_document "modelconfig" cfg ;;
    ret ({[ "id" := VStr cfg_id;
            "type" := VStr "url";
            "url" := ModelConfig.url_value cfg;
            "active" := VBool true ]} : pydict).

(** The body of a request is read into a [UrlPayload] before the handler
    runs. *)
Definition parse_UrlPayload (json : pydict) : option UrlPayload :=
  match json !! "url" with
  | Some (VStr s) =>
      match HttpUrl s with
      | Some u => Some (MkUrlPayload u)
      | None => None
      end
  | _ => None
  end.

(** [POST /api/models/url]: a body that is not a [UrlPayload] is answered
    by the framework's validation error, 422, and the handler is not
    called. *)
Definition POST_api_models_url (json : pydict) : World -> Response * World :=
  match parse_UrlPayload json with
  | Some payload => respond JDict (set_model_url payload)
  | None => fun w => (MkResponse 422 (JDetail "Input should be a valid URL"), w)
  end.

End Registry.

(** [POST /api/models] *)
Definition POST_api_models (file : UploadFile) : World -> Response * World :=
  respond JDict (upload_model file).

(** [GET /api/models/active] *)
Definition GET_api_models_active : World -> Response * World :=
  respond JDict get_active_model.

(** [GET /api/models?limit=..]: without the query parameter the handler's
    default, 10, is used. *)
Definition GET_api_models (limit : option Z) : World -> Response * World :=
  respond JList (list_models (Some (default 10 limit))).

(** ** Vocabulary of the properties *)

(** A record "has active = true". *)
Definition is_active (d : document) : bool :=
  bool_decide (fields d !! "active" = Some (VBool true)).

(** The active records across the two collections. *)
Definition active_records (d : Database) : list document :=
  List.filter is_active (Mongo.coll d "modelfile")
  ++ List.filter is_active (Mongo.coll d "modelconfig").

Definition updated_at (d : document) : option value := fields d !! "updated_at".

(** [c] is an active record of [l], and none of the active records of [l]
    was updated later. *)
Definition most_recent_active (l : list document) (c : document) : Prop :=
  c ∈ l /\ is_active c = true /\
  forall c', c' ∈ l -> is_active c' = true ->
    Bson.leb (updated_at c') (updated_at c) = true.

(** The two ways of activating a source. *)
Inductive activation :=
  | ActivateFile (file : UploadFile)
  | ActivateUrl (payload : UrlPayload).

Definition activate (HttpUrl : string -> option string) (a : activation)
    : M pydict :=
  match a with
  | ActivateFile file => upload_model file
  | ActivateUrl payload => set_model_url HttpUrl payload
  end.


(** What one [update_many] of an activation does to one record. *)
Definition deactivate (now : Z) (x : document) : document :=
  if Mongo.matches active_filter x then Mongo.apply_set (deactivation now) x
  else x.

(** The database after the two [update_many] calls of an activation. *)
Definition deactivate_all (t1 t2 : Z) (d : Database) : Database :=
  let d1 :=
    Mongo.set_coll d "modelfile" (map (deactivate t1) (Mongo.coll d "modelfile")) in
  Mongo.set_coll d1 "modelconfig"
    (map (deactivate t2) (Mongo.coll d1 "modelconfig")).

(** The database after [insert_one]. *)
Definition inserted (name : string) (data : pydict) (d : Database) : Database :=
  MkDatabase
    (<[name := Mongo.coll d name ++ [Document (next_oid d) data]]> (collections d))
    (next_oid d + 1)%N.

(** The world a completed activation leaves: three clock readings, three
    store calls. *)
Definition activated (name : string) (data : pydict) (w : World) (d : Database)
    : World :=
  MkWorld
    (Some (inserted name
             (<["updated_at" := VDate (clock w (S (S (reads w))))]> data)
             (deactivate_all (clock w (reads w)) (clock w (S (reads w))) d)))
    (clock w) (S (S (S (reads w)))) (fault w)
    (((log w ++ [UpdateMany "modelfile"]) ++ [UpdateMany "modelconfig"])
       ++ [InsertOne name]).

(** The store answers the next [k] calls. *)
Definition answers (w : World) (k : nat) : Prop :=
  forall i, (i < k)%nat -> fault w (length (log w) + i)%nat = None.

(** The record an upload stores, before it is stamped. *)
Definition doc_of (file : UploadFile) : ModelFile.t :=
  ModelFile.Make (filename file) (Z.of_nat (length (content file)))
    (Py.or_str (content_type file) "application/zip")
    (Base64.b64encode (content file)) true.

(** What [upload_model] returns for the record with identifier [oid]. *)
Definition upload_response (file : UploadFile) (oid : N) : pydict :=
  {[ "id" := VStr (Mongo.str_oid oid);
     "type" := VStr "db";
     "name" := VStr (filename file);
     "size" := VInt (Z.of_nat (length (content file)));
     "content_type" := VStr (Py.or_str (content_type file) "application/zip");
     "active" := VBool true ]}.

(** What [find_one(active_filter, sort=[("updated_at", -1)])] picks in a
    collection. *)
Definition find_active (l : list document) : option document :=
  head (merge_sort (Mongo.desc "updated_at")
          (List.filter (Mongo.matches active_filter) l)).

(** What [get_active_model] reports of a configuration record and of a file
    record. *)
Definition url_view (cfg : document) : pydict :=
  {[ "type" := VStr "url";
     "url" := Py.get (fields cfg) "url";
     "active" := VBool true;
     "updated_at" := Py.get (fields cfg) "updated_at" ]}.

Definition file_view (doc : document) : pydict :=
  {[ "type" := VStr "db";
     "id" := VStr (Mongo.str_oid (_id doc));
     "name" := Py.get (fields doc) "name";
     "size" := Py.get (fields doc) "size";
     "content_type" := Py.get (fields doc) "content_type";
     "active" := VBool true;
     "updated_at" := Py.get (fields doc) "updated_at" ]}.

(** The same world after further store calls that changed nothing. *)
Definition after_calls (w : World) (cs : list store_call) : World :=
  MkWorld (db w) (clock w) (reads w) (fault w) (log w ++ cs).

(** What [list_models] returns of one stored record. *)
Definition listed (x : document) : pydict :=
  with_id (Mongo.project_out ["data_b64"] x).

(** The order of a listing: no record was updated later than one before
    it. *)
Definition newer_first (a b : pydict) : Prop :=
  Bson.leb (b !! "updated_at") (a !! "updated_at") = true.



(** The requests of the registry, and the world one of them leaves. *)
Inductive request :=
  | Upload (file : UploadFile)
  | SetUrl (json : pydict)
  | GetActive
  | ListFiles (limit : option Z).

Definition serve (HttpUrl : string -> option string) (q : request)
    (w : World) : World :=
  match q with
  | Upload file => snd (POST_api_models file w)
  | SetUrl json => snd (POST_api_models_url HttpUrl json w)
  | GetActive => snd (GET_api_models_active w)
  | ListFiles limit => snd (GET_api_models limit w)
  end.

(** At most one record of the two collections is active (nothing is asked
    of a process without a store handle). *)
Definition at_most_one_active (handle : option Database) : Prop :=
  match handle with
  | Some d => (length (active_records d) <= 1)%nat
  | None => True
  end.

(** ** Sample requests and stores *)

Module Sample.

Definition clock0 (n : nat) : Z := 1700000000 + Z.of_nat n.

Definition reliable (n : nat) : option string := None.

(** A connected, empty store. *)
Definition w0 : World := MkWorld (Some (MkDatabase ∅ 1)) clock0 0 reliable [].

(** A ten-byte archive. *)
Definition model_zip : UploadFile :=
  MkUploadFile "model.zip" (Some "application/zip")
    [Byte.x50; Byte.x4b; Byte.x03; Byte.x04; Byte.x14; Byte.x00; Byte.x00;
     Byte.x00; Byte.x08; Byte.x00].

(** A validator that accepts the two schemes of [HttpUrl] and leaves the
    text as it is. *)
Definition http_only (s : string) : option string :=
  if String.prefix "http://" s || String.prefix "https://" s then Some s
  else None.

Definition payload0 : UrlPayload := MkUrlPayload "https://example.com/model.json".

(** The same archive under an upper-case name, and a file that is no
    archive. *)
Definition upper_zip : UploadFile :=
  MkUploadFile "MODEL.ZIP" (Some "application/zip") (content model_zip).

Definition notes_txt : UploadFile :=
  MkUploadFile "notes.txt" (Some "text/plain") (content model_zip).

(** A store whose every call fails with the same long message. *)
Definition refusal : string :=
  "localhost:27017: [Errno 111] Connection refused, Timeout: 30s, Topology Description: <TopologyDescription id: 65f0, topology_type: Unknown>".

Definition down (n : nat) : option string := Some refusal.

Definition w_down : World := MkWorld (Some (MkDatabase ∅ 1)) clock0 0 down [].

(** A store holding more than one active record: an active file and two
    active configurations, written to the store directly. *)
Definition racing_file : document :=
  Document 1 {[ "name" := VStr "model.zip"; "size" := VInt 10;
                "active" := VBool true; "updated_at" := VDate 20 ]}.

Definition older_cfg : document :=
  Document 2 {[ "source_type" := VStr "url"; "url" := VStr "https://a.example/old";
                "active" := VBool true; "updated_at" := VDate 5 ]}.

Definition newer_cfg : document :=
  Document 3 {[ "source_type" := VStr "url"; "url" := VStr "https://a.example/new";
                "active" := VBool true; "updated_at" := VDate 9 ]}.

Definition w_race : World :=
  MkWorld
    (Some (MkDatabase
             {[ "modelfile" := [racing_file];
                "modelconfig" := [older_cfg; newer_cfg] ]} 4))
    clock0 0 reliable [].

(** A message of sixty accented letters, two bytes each. *)
Definition accents : string :=
  "éééééééééééééééééééééééééééééééééééééééééééééééééééééééééééé".

(** An environment with both variables of the store set. *)
Definition reliable_env (k : string) : option string :=
  if String.eqb k "DATABASE_URL" then Some "mongodb://localhost:27017"
  else if String.eqb k "DATABASE_NAME" then Some "models"
  else None.

(** A process whose store handle was never set. *)
Definition w_unset : World := MkWorld None clock0 0 reliable [].

(** The store after the upload. *)
Definition w1 : World := snd (upload_model model_zip w0).

(** The racing store after an upload. *)
Definition w_replaced : World := snd (upload_model model_zip w_race).

(** The racing store after a second upload. *)
Definition w_twice : World := snd (upload_model upper_zip w_replaced).

(** A store of twelve uploads, none active, updated in no particular
    order. *)
Definition stored_file (i : nat) : document :=
  Document (N.of_nat i)
    {[ "name" := VStr "model.zip"; "size" := VInt 4;
       "content_type" := VStr "application/zip"; "data_b64" := VStr "UEsDBA==";
       "active" := VBool false;
       "updated_at" := VDate (Z.of_nat ((i * 7) mod 12)) ]}.

Definition w_many : World :=
  MkWorld
    (Some (MkDatabase {[ "modelfile" := map stored_file (seq 1 12) ]} 13))
    clock0 0 reliable [].



(** The store after the upload, when the fifth call from now will fail, and
    a sequence of requests: an upload that completes, an upload whose second
    deactivation fails, a registration, an upload that completes and two
    queries. *)
Definition fifth_fails (n : nat) : option string :=
  if (n =? 7)%nat then Some "write refused" else None.

Definition w_busy : World :=
  MkWorld (db w1) clock0 (reads w1) fifth_fails (log w1).

Definition busy_day : list request :=
  [Upload upper_zip;
   Upload model_zip;
   SetUrl {[ "url" := VStr "https://example.com/model.json" ]};
   Upload model_zip;
   GetActive;
   ListFiles None].

End Sample.

(** ** The diagnostics endpoint *)

Module Diagnostics.

(** A value of the diagnostics object: [None], a text, or a list of
    names. *)
Inductive dvalue :=
  | DNone
  | DStr (s : string)
  | DList (l : list string).

(** The [db] handle as [test_database] uses it: its [name] attribute, when
    [hasattr(db, 'name')], and what [db.list_collection_names()] does. *)
Record handle := Handle {
  name : option string;
  list_collection_names : outcome (list string)
}.

(** Truth of an [os.getenv] result: unset and empty are falsy. *)
Definition truthy (x : option string) : bool :=
  match x with
  | Some (String _ _) => true
  | _ => false
  end.

(** [test_database], behind [GET /test].  The dictionary [response] is
    updated in place, so what was assigned before an exception stays. *)
Definition test_database (db : option handle)
    (getenv : string -> option string) : gmap string dvalue :=
  let response : gmap string dvalue :=
    {[ "backend" := DStr "✅ Running";
       "database" := DStr "❌ Not Available";
       "database_url" := DNone;
       "database_name" := DNone;
       "connection_status" := DStr "Not Connected";
       "collections" := DList [] ]} in
  let response :=
    match
      match db with
      | Some db =>
          let response := <["database" := DStr "✅ Available"]> response in
          let response := <["database_url" := DStr "✅ Configured"]> response in
          let response :=
            <["database_name" :=
                DStr (match name db with
                      | Some n => n
                      | None => "✅ Connected"
                      end)]> response in
          let response := <["connection_status" := DStr "Connected"]> response in
          let response :=
            match list_collection_names db with
            | Return collections =>
                let response :=
                  <["collections" := DList (take 10 collections)]> response in
                <["database" := DStr "✅ Connected & Working"]> response
            | Raise e =>
                <["database" :=
                    DStr ("⚠️  Connected but Error: "
                          +:+ Py.slice_to 50 (str_exn e))]> response
            end in
          (Return tt, response)
      | None =>
          (Return tt,
           <["database" := DStr "⚠️  Available but not initialized"]> response)
      end
    with
    | (Return _, response) => response
    | (Raise e, response) =>
        <["database" := DStr ("❌ Error: " +:+ Py.slice_to 50 (str_exn e))]>
          response
    end in
  let response :=
    <["database_url" :=
        DStr (if truthy (getenv "DATABASE_URL") then "✅ Set" else "❌ Not Set")]>
      response in
  let response :=
    <["database_name" :=
        DStr (if truthy (getenv "DATABASE_NAME") then "✅ Set" else "❌ Not Set")]>
      response in
  response.

End Diagnostics.

(** ** The sort order is a total preorder *)

Lemma string_compare_refl (s : string) : String.compare s s = Eq.
Proof.
  induction s as [|a s IH]; simpl; [done|].
  unfold Ascii.compare. by rewrite N.compare_refl.
Qed.

Lemma ascii_compare_lt_trans (a b c : ascii) :
  Ascii.compare a b = Lt -> Ascii.compare b c = Lt -> Ascii.compare a c = Lt.
Proof.
  unfold Ascii.compare. rewrite !N.compare_lt_iff. lia.
Qed.

Lemma ascii_compare_eq (a b : ascii) : Ascii.compare a b = Eq -> a = b.
Proof.
  unfold Ascii.compare. rewrite N.compare_eq_iff. intros E.
  rewrite <- (ascii_N_embedding a), <- (ascii_N_embedding b). by rewrite E.
Qed.

Lemma string_compare_lt_trans (s1 : string) :
  forall s2 s3,
    String.compare s1 s2 = Lt -> String.compare s2 s3 = Lt ->
    String.compare s1 s3 = Lt.
Proof.
  induction s1 as [|a s1 IH]; intros [|b s2] [|c s3]; simpl; try done.
  destruct (Ascii.compare a b) eqn:Hab; try done;
    destruct (Ascii.compare b c) eqn:Hbc; try done; intros H12 H23.
  - apply ascii_compare_eq in Hab, Hbc. subst.
    unfold Ascii.compare. rewrite N.compare_refl. eauto.
  - apply ascii_compare_eq in Hab. subst. by rewrite Hbc.
  - apply ascii_compare_eq in Hbc. subst. by rewrite Hab.
  - by rewrite (ascii_compare_lt_trans a b c).
Qed.

Lemma string_leb_trans (s1 s2 s3 : string) :
  String.leb s1 s2 = true -> String.leb s2 s3 = true -> String.leb s1 s3 = true.
Proof.
  unfold String.leb.
  destruct (String.compare s1 s2) eqn:H12; try done;
    destruct (String.compare s2 s3) eqn:H23; try done; intros _ _.
  - apply String.compare_eq_iff in H12, H23. subst.
    by rewrite string_compare_refl.
  - apply String.compare_eq_iff in H12. subst. by rewrite H23.
  - apply String.compare_eq_iff in H23. subst. by rewrite H12.
  - by rewrite (string_compare_lt_trans s1 s2 s3).
Qed.

Lemma bson_leb_total (a b : option value) :
  Bson.leb a b = true \/ Bson.leb b a = true.
Proof.
  unfold Bson.leb.
  destruct a as [[]|], b as [[]|]; simpl; auto;
    try (destruct (String.leb_total s s0); auto);
    try (destruct b, b0; auto);
    try (destruct (Z.leb_spec z z0), (Z.leb_spec z0 z); auto; lia);
    try (destruct (Z.leb_spec t t0), (Z.leb_spec t0 t); auto; lia);
    try (destruct (N.leb_spec n n0), (N.leb_spec n0 n); auto; lia).
Qed.

Lemma bson_leb_trans (a b c : option value) :
  Bson.leb a b = true -> Bson.leb b c = true -> Bson.leb a c = true.
Proof.
  unfold Bson.leb.
  destruct a as [[]|], b as [[]|], c as [[]|]; simpl; try done;
    try (rewrite ?Z.leb_le, ?N.leb_le; lia);
    try (apply string_leb_trans);
    try (by destruct b, b0, b1).
Qed.

#[global] Instance desc_total key : Total (Mongo.desc key).
Proof. intros a b. unfold Mongo.desc. apply bson_leb_total. Qed.

#[global] Instance desc_trans key : Transitive (Mongo.desc key).
Proof. intros a b c H1 H2. unfold Mongo.desc in *. eapply bson_leb_trans; eauto. Qed.

(** ** Base64 decodes what it encodes *)

Module Base64Facts.
Import Base64.

Lemma alphabet_table :
  forallb
    (fun i =>
       match sextet (digit i) with
       | Some j => N.eqb i j
       | None => false
       end && negb (Ascii.eqb (digit i) pad))
    (map N.of_nat (seq 0 64)) = true.
Proof. vm_compute. reflexivity. Qed.

Lemma digit_facts (i : N) :
  (i < 64)%N -> sextet (digit i) = Some i /\ Ascii.eqb (digit i) pad = false.
Proof.
  intros Hi.
  pose proof (proj1 (forallb_forall _ _) alphabet_table i) as H.
  assert (Hin : In i (map N.of_nat (seq 0 64))).
  { apply in_map_iff. exists (N.to_nat i). split; [lia|].
    apply in_seq. lia. }
  specialize (H Hin). apply andb_prop in H as [H1 H2].
  destruct (sextet (digit i)) as [j|]; [|done].
  apply N.eqb_eq in H1. subst j. split; [done|].
  by destruct (Ascii.eqb (digit i) pad).
Qed.

Lemma byte_of_to_N (a : Byte.byte) : byte_of (Byte.to_N a) = a.
Proof. unfold byte_of. by rewrite Byte.of_to_N. Qed.

Lemma to_N_lt (a : Byte.byte) : (Byte.to_N a < 256)%N.
Proof. pose proof (Byte.to_N_bounded a). lia. Qed.

Local Ltac Zify.zify_post_hook ::= Z.div_mod_to_equations.

(** Arithmetic on [N] with quotients and remainders, settled on [Z]. *)
Local Ltac via_Z :=
  apply N2Z.inj;
  repeat (rewrite N2Z.inj_mod || rewrite N2Z.inj_div || rewrite N2Z.inj_add
          || rewrite N2Z.inj_mul);
  repeat match goal with
  | |- context [Z.of_N (Npos ?p)] => change (Z.of_N (Npos p)) with (Zpos p)
  end;
  lia.

Lemma sextets_join (n : N) :
  (n < 16777216)%N ->
  (n / 262144 * 262144 + n / 4096 mod 64 * 4096 + n / 64 mod 64 * 64
   + n mod 64 = n)%N.
Proof. intros Hn. via_Z. Qed.

Lemma sextets_range (n : N) :
  (n < 16777216)%N ->
  (n / 262144 < 64 /\ n / 4096 mod 64 < 64 /\ n / 64 mod 64 < 64
   /\ n mod 64 < 64)%N.
Proof. intros Hn. repeat split; try (apply N.mod_lt; lia). lia. Qed.

Lemma pack3_lt (a b c : Byte.byte) : (pack3 a b c < 16777216)%N.
Proof.
  unfold pack3. pose proof (to_N_lt a). pose proof (to_N_lt b).
  pose proof (to_N_lt c). lia.
Qed.

Lemma octets (a b c : N) :
  (a < 256 -> b < 256 -> c < 256 ->
   (a * 65536 + b * 256 + c) / 65536 = a
   /\ (a * 65536 + b * 256 + c) / 256 mod 256 = b
   /\ (a * 65536 + b * 256 + c) mod 256 = c)%N.
Proof. intros Ha Hb Hc. repeat split; via_Z. Qed.

Lemma unpack_pack3 (a b c : Byte.byte) : unpack (pack3 a b c) = [a; b; c].
Proof.
  unfold unpack, pack3.
  destruct (octets _ _ _ (to_N_lt a) (to_N_lt b) (to_N_lt c)) as (-> & -> & ->).
  by rewrite !byte_of_to_N.
Qed.

(** A group whose last octets are zero is rebuilt from its first sextets. *)
Lemma join_two (a : Byte.byte) :
  let n := pack3 a Byte.x00 Byte.x00 in
  (n / 262144 * 262144 + n / 4096 mod 64 * 4096 = n)%N.
Proof.
  intros n. pose proof (sextets_join n (pack3_lt _ _ _)) as H.
  assert (n / 64 mod 64 = 0 /\ n mod 64 = 0)%N as [H1 H2].
  { subst n. unfold pack3. simpl (Byte.to_N Byte.x00).
    pose proof (to_N_lt a). split; via_Z. }
  rewrite H1, H2 in H. lia.
Qed.

Lemma join_three (a b : Byte.byte) :
  let n := pack3 a b Byte.x00 in
  (n / 262144 * 262144 + n / 4096 mod 64 * 4096 + n / 64 mod 64 * 64 = n)%N.
Proof.
  intros n. pose proof (sextets_join n (pack3_lt _ _ _)) as H.
  assert (n mod 64 = 0)%N as H2.
  { subst n. unfold pack3. simpl (Byte.to_N Byte.x00).
    pose proof (to_N_lt a). pose proof (to_N_lt b). via_Z. }
  rewrite H2 in H. lia.
Qed.

(** Induction over a byte string three octets at a time. *)
Lemma by_triples (P : list Byte.byte -> Prop) :
  P [] -> (forall a, P [a]) -> (forall a b, P [a; b]) ->
  (forall a b c rest, P rest -> P (a :: b :: c :: rest)) ->
  forall bs, P bs.
Proof.
  intros H0 H1 H2 H3.
  assert (forall bs, P bs /\ (forall a, P (a :: bs))
                     /\ (forall a b, P (a :: b :: bs))) as H.
  { induction bs as [|x bs (IH0 & IH1 & IH2)]; [by auto|].
    repeat split; auto. }
  intros bs. apply H.
Qed.

Lemma b64decode_b64encode (bs : list Byte.byte) :
  b64decode (b64encode bs) = Some bs.
Proof.
  induction bs as [|a|a b|a b c rest IH] using by_triples.
  - done.
  - cbn [b64encode b64decode].
    destruct (sextets_range _ (pack3_lt a Byte.x00 Byte.x00)) as (R1 & R2 & _).
    destruct (digit_facts _ R1) as [-> _].
    destruct (digit_facts _ R2) as [-> _].
    rewrite Ascii.eqb_refl. rewrite (join_two a).
    by rewrite unpack_pack3.
  - cbn [b64encode b64decode].
    destruct (sextets_range _ (pack3_lt a b Byte.x00)) as (R1 & R2 & R3 & _).
    destruct (digit_facts _ R1) as [-> _].
    destruct (digit_facts _ R2) as [-> _].
    destruct (digit_facts _ R3) as [-> ->].
    rewrite Ascii.eqb_refl. rewrite (join_three a b).
    by rewrite unpack_pack3.
  - cbn [b64encode b64decode]. fold b64decode.
    destruct (sextets_range _ (pack3_lt a b c)) as (R1 & R2 & R3 & R4).
    destruct (digit_facts _ R1) as [-> _].
    destruct (digit_facts _ R2) as [-> _].
    destruct (digit_facts _ R3) as [-> _].
    destruct (digit_facts _ R4) as [-> ->].
    rewrite IH. rewrite (sextets_join _ (pack3_lt a b c)).
    by rewrite unpack_pack3.
Qed.

End Base64Facts.

(** ** Running the handlers *)

Lemma length_snoc {A} (l : list A) (x : A) : length (l ++ [x]) = S (length l).
Proof. rewrite length_app. simpl. lia. Qed.

Ltac run_in H :=
  cbv beta iota zeta delta
    [upload_model set_model_url get_active_model list_models activate
     create_document read bind ret raise try_except datetime_now db_is_None
     Mongo.update_many Mongo.insert_one Mongo.find_one Mongo.iterate Mongo.call
     ModelFile.new ModelConfig.new respond negb
     db clock reads fault log] in H;
  rewrite ?length_snoc in H.

Ltac run :=
  cbv beta iota zeta delta
    [upload_model set_model_url get_active_model list_models activate
     create_document read bind ret raise try_except datetime_now db_is_None
     Mongo.update_many Mongo.insert_one Mongo.find_one Mongo.iterate Mongo.call
     ModelFile.new ModelConfig.new respond negb
     db clock reads fault log];
  rewrite ?length_snoc.

Lemma answers_3 (w : World) :
  fault w (length (log w)) = None ->
  fault w (S (length (log w))) = None ->
  fault w (S (S (length (log w)))) = None ->
  answers w 3.
Proof.
  intros H0 H1 H2 i Hi.
  destruct i as [|[|[|i]]]; [| | |lia];
    [replace (length (log w) + 0)%nat with (length (log w)) by lia
    |replace (length (log w) + 1)%nat with (S (length (log w))) by lia
    |replace (length (log w) + 2)%nat with (S (S (length (log w)))) by lia];
    done.
Qed.

Lemma encodable_file (t : Z) (m : ModelFile.t) :
  Mongo.encodable (<["updated_at" := VDate t]> (model_dump m)) = true.
Proof.
  unfold Mongo.encodable. apply bool_decide_eq_true.
  apply map_Forall_insert_2; [done|]. unfold model_dump. simpl.
  repeat (apply map_Forall_insert_2; [done|]).
  apply map_Forall_empty.
Qed.

(** The dictionary of a configuration with a URL holds the URL object. *)
Lemma not_encodable_cfg (t : Z) (st u : string) (act : bool) :
  Mongo.encodable
    (<["updated_at" := VDate t]> (model_dump (ModelConfig.Make st (Some u) act)))
  = false.
Proof.
  unfold Mongo.encodable. apply bool_decide_eq_false. intros H.
  specialize (H "url" (VUrl u)). unfold model_dump in H. simpl in H.
  rewrite lookup_insert_ne in H by done.
  rewrite lookup_insert_ne in H by done.
  rewrite lookup_insert_eq in H. by specialize (H eq_refl).
Qed.

Lemma upload_model_Return (file : UploadFile) (w w' : World) (r : pydict) :
  upload_model file w = (Return r, w') ->
  exists d,
    db w = Some d
    /\ Py.endswith (Py.lower (filename file)) ".zip" = true
    /\ content file <> []
    /\ answers w 3
    /\ w' = activated "modelfile" (model_dump (doc_of file)) w d
    /\ r = upload_response file (next_oid d).
Proof.
  destruct w as [d0 clk rd flt lg]. intros H. run_in H.
  destruct (Py.endswith _ _) eqn:Ez; run_in H; [|done].
  destruct (length (content file) =? 0)%nat eqn:El; run_in H; [done|].
  destruct (Z.of_nat (length (content file)) <? 0) eqn:Es; run_in H; [done|].
  destruct d0 as [d|]; run_in H; [|done].
  destruct (flt (length lg)) eqn:F0; run_in H; [done|].
  destruct (flt (S (length lg))) eqn:F1; run_in H; [done|].
  rewrite encodable_file in H. run_in H.
  destruct (flt (S (S (length lg)))) eqn:F2; run_in H; [done|].
  injection H as <- <-.
  exists d. repeat split; try done.
  - intros E. by rewrite E in El.
  - by apply answers_3.
Qed.


(** ** The collections after an activation *)

Lemma coll_set_coll (d : Database) (name : string) (l : list document) :
  Mongo.coll (Mongo.set_coll d name l) name = l.
Proof. unfold Mongo.coll, Mongo.set_coll. simpl. by rewrite lookup_insert_eq. Qed.

Lemma coll_set_coll_ne (d : Database) (name name' : string) (l : list document) :
  name <> name' ->
  Mongo.coll (Mongo.set_coll d name l) name' = Mongo.coll d name'.
Proof.
  intros Hne. unfold Mongo.coll, Mongo.set_coll. simpl.
  by rewrite lookup_insert_ne.
Qed.

Lemma coll_deactivate_all_modelfile (t1 t2 : Z) (d : Database) :
  Mongo.coll (deactivate_all t1 t2 d) "modelfile"
  = map (deactivate t1) (Mongo.coll d "modelfile").
Proof.
  unfold deactivate_all. cbv zeta.
  rewrite coll_set_coll_ne by done. apply coll_set_coll.
Qed.

Lemma coll_deactivate_all_modelconfig (t1 t2 : Z) (d : Database) :
  Mongo.coll (deactivate_all t1 t2 d) "modelconfig"
  = map (deactivate t2) (Mongo.coll d "modelconfig").
Proof.
  unfold deactivate_all. cbv zeta.
  rewrite coll_set_coll. by rewrite coll_set_coll_ne.
Qed.

Lemma next_oid_deactivate_all (t1 t2 : Z) (d : Database) :
  next_oid (deactivate_all t1 t2 d) = next_oid d.
Proof. done. Qed.

Lemma coll_inserted (name : string) (data : pydict) (d : Database) :
  Mongo.coll (inserted name data d) name
  = Mongo.coll d name ++ [Document (next_oid d) data].
Proof. unfold Mongo.coll at 1, inserted. simpl. by rewrite lookup_insert_eq. Qed.

Lemma coll_inserted_ne (name name' : string) (data : pydict) (d : Database) :
  name <> name' ->
  Mongo.coll (inserted name data d) name' = Mongo.coll d name'.
Proof.
  intros Hne. unfold Mongo.coll, inserted. simpl. by rewrite lookup_insert_ne.
Qed.

Lemma matches_active_filter (x : document) :
  Mongo.matches active_filter x = is_active x.
Proof.
  unfold Mongo.matches, is_active, active_filter.
  apply bool_decide_ext. apply map_singleton_subseteq_l.
Qed.

Lemma is_active_deactivate (now : Z) (x : document) :
  is_active (deactivate now x) = false.
Proof.
  unfold deactivate. rewrite matches_active_filter.
  destruct (is_active x) eqn:E; [|done].
  unfold is_active, Mongo.apply_set, deactivation. simpl.
  apply bool_decide_eq_false.
  rewrite lookup_union_l'; [by rewrite lookup_insert_eq|].
  rewrite lookup_insert_eq. eauto.
Qed.

Lemma no_active_after_deactivate (now : Z) (l : list document) :
  List.filter is_active (map (deactivate now) l) = [].
Proof.
  induction l as [|x l IH]; simpl; [done|].
  by rewrite is_active_deactivate.
Qed.

Lemma filter_snoc {A} (f : A -> bool) (l : list A) (x : A) :
  List.filter f (l ++ [x]) = List.filter f l ++ (if f x then [x] else []).
Proof. rewrite List.filter_app. done. Qed.

(** The active records of the database a completed activation leaves. *)
Lemma active_records_activated (name : string) (data : pydict) (t1 t2 : Z)
    (d : Database) :
  name = "modelfile" \/ name = "modelconfig" ->
  data !! "active" = Some (VBool true) ->
  active_records (inserted name data (deactivate_all t1 t2 d))
  = [Document (next_oid d) data].
Proof.
  intros Hname Hact. unfold active_records.
  assert (is_active (Document (next_oid d) data) = true) as Hnew.
  { unfold is_active. simpl. by apply bool_decide_eq_true. }
  destruct Hname as [-> | ->].
  - rewrite coll_inserted, coll_inserted_ne by done.
    rewrite coll_deactivate_all_modelfile, coll_deactivate_all_modelconfig.
    rewrite filter_snoc, !no_active_after_deactivate.
    rewrite next_oid_deactivate_all, Hnew. done.
  - rewrite coll_inserted, coll_inserted_ne by done.
    rewrite coll_deactivate_all_modelfile, coll_deactivate_all_modelconfig.
    rewrite filter_snoc, !no_active_after_deactivate.
    rewrite next_oid_deactivate_all, Hnew. done.
Qed.

Lemma active_records_deactivate_all (t1 t2 : Z) (d : Database) :
  active_records (deactivate_all t1 t2 d) = [].
Proof.
  unfold active_records.
  rewrite coll_deactivate_all_modelfile, coll_deactivate_all_modelconfig.
  by rewrite !no_active_after_deactivate.
Qed.





(** ** One active source *)


(** ** Running [get_active_model] *)

Lemma answers_0 (w : World) (k : nat) :
  answers w (S k) -> fault w (length (log w)) = None.
Proof.
  intros H. specialize (H 0%nat). rewrite Nat.add_0_r in H. apply H. lia.
Qed.

Lemma answers_1 (w : World) (k : nat) :
  answers w (S (S k)) -> fault w (S (length (log w))) = None.
Proof.
  intros H. specialize (H 1%nat). rewrite Nat.add_1_r in H. apply H. lia.
Qed.

Lemma sorted_desc (key : string) (l : list document) :
  Mongo.sorted (Some (key, -1)) l = merge_sort (Mongo.desc key) l.
Proof. done. Qed.

Lemma get_active_model_config (w : World) (d : Database) (cfg : document) :
  db w = Some d ->
  answers w 1 ->
  find_active (Mongo.coll d "modelconfig") = Some cfg ->
  get_active_model w
  = (Return (url_view cfg), after_calls w [FindOne "modelconfig"]).
Proof.
  destruct w as [d0 clk rd flt lg]. simpl. intros -> Ha Hc.
  apply answers_0 in Ha. simpl in Ha. unfold find_active in Hc.
  run. rewrite Ha. run. rewrite !sorted_desc. rewrite Hc. done.
Qed.

Lemma get_active_model_file (w : World) (d : Database) (doc : document) :
  db w = Some d ->
  answers w 2 ->
  find_active (Mongo.coll d "modelconfig") = None ->
  find_active (Mongo.coll d "modelfile") = Some doc ->
  get_active_model w
  = (Return (file_view doc),
     after_calls w [FindOne "modelconfig"; FindOne "modelfile"]).
Proof.
  destruct w as [d0 clk rd flt lg]. simpl. intros -> Ha Hc Hf.
  pose proof (answers_0 _ _ Ha) as H0. pose proof (answers_1 _ _ Ha) as H1.
  simpl in H0, H1. unfold find_active in Hc, Hf.
  run. rewrite H0. run. rewrite sorted_desc, Hc. run. rewrite H1. run.
  rewrite sorted_desc, Hf.
  unfold after_calls. simpl. by rewrite <- app_assoc.
Qed.

Lemma get_active_model_none (w : World) (d : Database) :
  db w = Some d ->
  answers w 2 ->
  find_active (Mongo.coll d "modelconfig") = None ->
  find_active (Mongo.coll d "modelfile") = None ->
  get_active_model w
  = (Return {[ "active" := VBool false ]},
     after_calls w [FindOne "modelconfig"; FindOne "modelfile"]).
Proof.
  destruct w as [d0 clk rd flt lg]. simpl. intros -> Ha Hc Hf.
  pose proof (answers_0 _ _ Ha) as H0. pose proof (answers_1 _ _ Ha) as H1.
  simpl in H0, H1. unfold find_active in Hc, Hf.
  run. rewrite H0. run. rewrite sorted_desc, Hc. run. rewrite H1. run.
  rewrite sorted_desc, Hf.
  unfold after_calls. simpl. by rewrite <- app_assoc.
Qed.

(** ** What [find_one] picks *)

Lemma filter_matches_active (l : list document) :
  List.filter (Mongo.matches active_filter) l = List.filter is_active l.
Proof. apply List.filter_ext. intros x. apply matches_active_filter. Qed.

Lemma bson_leb_refl (a : option value) : Bson.leb a a = true.
Proof. by destruct (bson_leb_total a a). Qed.

Lemma find_active_Some (l : list document) (c : document) :
  find_active l = Some c -> most_recent_active l c.
Proof.
  unfold find_active. rewrite filter_matches_active.
  set (fl := List.filter is_active l).
  pose proof (merge_sort_Permutation (Mongo.desc "updated_at") fl) as Hp.
  pose proof (StronglySorted_merge_sort (Mongo.desc "updated_at") fl) as Hs.
  destruct (merge_sort (Mongo.desc "updated_at") fl) as [|x tl]; [done|].
  simpl. intros [= ->].
  assert (forall y, y ∈ fl <-> y ∈ l /\ is_active y = true) as Hfl.
  { intros y. subst fl. rewrite !list_elem_of_In. apply List.filter_In. }
  assert (c ∈ fl) as Hc by (rewrite <- Hp; left).
  apply Hfl in Hc as [Hin Hact]. split; [done|]. split; [done|].
  intros c' Hin' Hact'.
  assert (c' ∈ c :: tl) as Hc' by (rewrite Hp; apply Hfl; done).
  apply StronglySorted_inv in Hs as [_ Hall].
  apply elem_of_cons in Hc' as [-> | Htl].
  - apply bson_leb_refl.
  - rewrite Forall_forall in Hall. apply (Hall c' Htl).
Qed.

Lemma find_active_None (l : list document) :
  find_active l = None -> forall c, c ∈ l -> is_active c = false.
Proof.
  unfold find_active. rewrite filter_matches_active.
  set (fl := List.filter is_active l).
  pose proof (merge_sort_Permutation (Mongo.desc "updated_at") fl) as Hp.
  destruct (merge_sort (Mongo.desc "updated_at") fl) as [|x tl]; [|done].
  intros _ c Hin. symmetry in Hp. apply Permutation_nil_r in Hp.
  destruct (is_active c) eqn:E; [|done].
  assert (In c fl) as Hc.
  { subst fl. apply List.filter_In. split; [by apply list_elem_of_In|done]. }
  rewrite Hp in Hc. destruct Hc.
Qed.

Lemma find_active_is_Some (l : list document) (c : document) :
  c ∈ l -> is_active c = true -> exists c', find_active l = Some c'.
Proof.
  intros Hin Hact. destruct (find_active l) as [c'|] eqn:E; [eauto|].
  by rewrite (find_active_None l E c Hin) in Hact.
Qed.

Lemma find_active_nil (l : list document) :
  List.filter is_active l = [] -> find_active l = None.
Proof.
  intros H. unfold find_active. by rewrite filter_matches_active, H.
Qed.

Lemma find_active_singleton (l : list document) (x : document) :
  List.filter is_active l = [x] -> find_active l = Some x.
Proof.
  intros H. unfold find_active. by rewrite filter_matches_active, H.
Qed.

(** A run is its outcome paired with the world it leaves. *)
Lemma run_outcome {A} (m : M A) (w : World) (o : outcome A) :
  fst (m w) = o -> m w = (o, snd (m w)).
Proof. intros <-. by destruct (m w). Qed.


Lemma lookup_file_view (doc : document) :
  file_view doc !! "type" = Some (VStr "db")
  /\ file_view doc !! "id" = Some (VStr (Mongo.str_oid (_id doc)))
  /\ file_view doc !! "name" = Some (Py.get (fields doc) "name")
  /\ file_view doc !! "size" = Some (Py.get (fields doc) "size")
  /\ file_view doc !! "active" = Some (VBool true).
Proof. unfold file_view. repeat split; by simplify_map_eq. Qed.

Lemma lookup_url_view (cfg : document) :
  url_view cfg !! "type" = Some (VStr "url")
  /\ url_view cfg !! "url" = Some (Py.get (fields cfg) "url")
  /\ url_view cfg !! "active" = Some (VBool true).
Proof. unfold url_view. repeat split; by simplify_map_eq. Qed.

Lemma answers_le (w : World) (k k' : nat) :
  (k <= k')%nat -> answers w k' -> answers w k.
Proof. intros Hk H i Hi. apply H. lia. Qed.

(** C2. After an upload that [upload_model] accepted and stored, with no
    activation in between and the store answering, [get_active_model]
    returns a record of type "db" whose name is the uploaded file's name and
    whose size is the number of uploaded bytes (and whose id is the one the
    upload returned). *)
Theorem get_active_after_upload (file : UploadFile) (w w1 : World)
    (r : pydict) :
  upload_model file w = (Return r, w1) ->
  answers w1 2 ->
  exists v w2,
    get_active_model w1 = (Return v, w2)
    /\ GET_api_models_active w1 = (MkResponse 200 (JDict v), w2)
    /\ db w2 = db w1
    /\ v !! "type" = Some (VStr "db")
    /\ v !! "name" = Some (VStr (filename file))
    /\ v !! "size" = Some (VInt (Z.of_nat (length (content file))))
    /\ v !! "id" = r !! "id"
    /\ v !! "active" = Some (VBool true).
Proof.
  intros H Ha.
  apply upload_model_Return in H as (d & Hd & _ & _ & _ & -> & ->).
  set (t1 := clock w (reads w)) in *. set (t2 := clock w (S (reads w))) in *.
  set (data := <["updated_at" := VDate (clock w (S (S (reads w))))]>
                 (model_dump (doc_of file))).
  set (d' := inserted "modelfile" data (deactivate_all t1 t2 d)).
  assert (is_active (Document (next_oid d) data) = true) as Hnew.
  { unfold is_active. simpl. by apply bool_decide_eq_true. }
  assert (find_active (Mongo.coll d' "modelconfig") = None) as Hc.
  { apply find_active_nil. subst d'.
    rewrite coll_inserted_ne by done. rewrite coll_deactivate_all_modelconfig.
    apply no_active_after_deactivate. }
  assert (find_active (Mongo.coll d' "modelfile")
          = Some (Document (next_oid d) data)) as Hf.
  { apply find_active_singleton. subst d'.
    rewrite coll_inserted, coll_deactivate_all_modelfile.
    rewrite filter_snoc, no_active_after_deactivate.
    by rewrite next_oid_deactivate_all, Hnew. }
  pose proof (get_active_model_file
                (activated "modelfile" (model_dump (doc_of file)) w d)
                d' _ eq_refl Ha Hc Hf) as Hrun.
  eexists _, _. split; [exact Hrun|].
  split; [unfold GET_api_models_active, respond; by rewrite Hrun|].
  split; [done|].
  destruct (lookup_file_view (Document (next_oid d) data))
    as (-> & -> & -> & -> & ->).
  repeat split.
Qed.

Lemma get_active_after_upload_witness :
  exists v w2,
    get_active_model Sample.w1 = (Return v, w2)
    /\ GET_api_models_active Sample.w1 = (MkResponse 200 (JDict v), w2)
    /\ db w2 = db Sample.w1
    /\ v !! "type" = Some (VStr "db")
    /\ v !! "name" = Some (VStr "model.zip")
    /\ v !! "size" = Some (VInt 10)
    /\ v !! "id" = upload_response Sample.model_zip 1 !! "id"
    /\ v !! "active" = Some (VBool true).
Proof.
  apply (get_active_after_upload Sample.model_zip Sample.w0 Sample.w1
           (upload_response Sample.model_zip 1)).
  - apply run_outcome. vm_compute. reflexivity.
  - intros i Hi. reflexivity.
Defined.




(** C4. With the store connected and answering, [GET /api/models/active]
    is a 200 in every case.  It asks [modelconfig] first: if that has an
    active record, the answer is the view of a most recently updated active
    configuration and [modelfile] is not asked at all, whatever it holds.
    Only when [modelconfig] has no active record is [modelfile] asked, the
    same way.  When neither has one, the answer is [{"active": False}]. *)
Theorem get_active_order (w : World) (d : Database) :
  db w = Some d ->
  answers w 2 ->
  exists v w',
    GET_api_models_active w = (MkResponse 200 (JDict v), w')
    /\ db w' = Some d
    /\ ((exists c, c ∈ Mongo.coll d "modelconfig" /\ is_active c = true) ->
        exists c,
          most_recent_active (Mongo.coll d "modelconfig") c
          /\ v = url_view c
          /\ v !! "type" = Some (VStr "url")
          /\ v !! "url" = Some (Py.get (fields c) "url")
          /\ log w' = log w ++ [FindOne "modelconfig"])
    /\ ((forall c, c ∈ Mongo.coll d "modelconfig" -> is_active c = false) ->
        log w' = log w ++ [FindOne "modelconfig"; FindOne "modelfile"]
        /\ ((exists f, f ∈ Mongo.coll d "modelfile" /\ is_active f = true) ->
            exists f,
              most_recent_active (Mongo.coll d "modelfile") f
              /\ v = file_view f
              /\ v !! "type" = Some (VStr "db"))
        /\ ((forall f, f ∈ Mongo.coll d "modelfile" -> is_active f = false) ->
            v = {[ "active" := VBool false ]})).
Proof.
  intros Hd Ha. unfold GET_api_models_active, respond.
  destruct (find_active (Mongo.coll d "modelconfig")) as [c|] eqn:Hc.
  - rewrite (get_active_model_config w d c Hd (answers_le _ 1 2 ltac:(lia) Ha) Hc).
    eexists _, _. split; [reflexivity|]. split; [done|]. split.
    + intros _. exists c. split; [by apply find_active_Some|].
      destruct (lookup_url_view c) as (Ht & Hu & _). done.
    + intros Hno. apply find_active_Some in Hc as (Hin & Hact & _).
      by rewrite (Hno c Hin) in Hact.
  - destruct (find_active (Mongo.coll d "modelfile")) as [f|] eqn:Hf.
    + rewrite (get_active_model_file w d f Hd Ha Hc Hf).
      eexists _, _. split; [reflexivity|]. split; [done|]. split.
      * intros (c & Hin & Hact).
        by rewrite (find_active_None _ Hc c Hin) in Hact.
      * intros _. split; [done|]. split.
        -- intros _. exists f. split; [by apply find_active_Some|].
           destruct (lookup_file_view f) as (Ht & _). done.
        -- intros Hno. apply find_active_Some in Hf as (Hin & Hact & _).
           by rewrite (Hno f Hin) in Hact.
    + rewrite (get_active_model_none w d Hd Ha Hc Hf).
      eexists _, _. split; [reflexivity|]. split; [done|]. split.
      * intros (c & Hin & Hact).
        by rewrite (find_active_None _ Hc c Hin) in Hact.
      * intros _. split; [done|]. split.
        -- intros (f & Hin & Hact).
           by rewrite (find_active_None _ Hf f Hin) in Hact.
        -- done.
Qed.

Lemma get_active_order_witness :
  exists v w',
    GET_api_models_active Sample.w_race = (MkResponse 200 (JDict v), w')
    /\ v !! "type" = Some (VStr "url")
    /\ v !! "url" = Some (VStr "https://a.example/new")
    /\ log w' = [FindOne "modelconfig"].
Proof.
  destruct (get_active_order Sample.w_race
              (MkDatabase
                 {[ "modelfile" := [Sample.racing_file];
                    "modelconfig" := [Sample.older_cfg; Sample.newer_cfg] ]} 4))
    as (v & w' & Hrun & _ & Hcfg & _).
  - reflexivity.
  - intros i Hi. reflexivity.
  - destruct Hcfg as (c & (Hin & _ & Hmax) & -> & Ht & Hu & Hlog).
    { exists Sample.newer_cfg. split; [|reflexivity].
      change (Sample.newer_cfg ∈ [Sample.older_cfg; Sample.newer_cfg]).
      apply elem_of_cons. right. apply elem_of_cons. by left. }
    exists (url_view c), w'. split; [exact Hrun|]. split; [exact Ht|].
    split; [|exact Hlog]. rewrite Hu.
    change (c ∈ [Sample.older_cfg; Sample.newer_cfg]) in Hin.
    apply elem_of_cons in Hin as [-> | Hin].
    + specialize (Hmax Sample.newer_cfg).
      assert (Bson.leb (updated_at Sample.newer_cfg)
                (updated_at Sample.older_cfg) = true) as Habs.
      { apply Hmax; [|reflexivity].
        change (Sample.newer_cfg ∈ [Sample.older_cfg; Sample.newer_cfg]).
        apply elem_of_cons. right. apply elem_of_cons. by left. }
      vm_compute in Habs. discriminate Habs.
    + apply list_elem_of_singleton in Hin as ->. reflexivity.
Defined.

(** ** Running [list_models] *)

Lemma filter_matches_all (l : list document) :
  List.filter (Mongo.matches ∅) l = l.
Proof.
  induction l as [|x l IH]; simpl; [done|].
  unfold Mongo.matches at 1.
  rewrite bool_decide_eq_true_2 by apply map_empty_subseteq. by rewrite IH.
Qed.

Lemma list_models_run (limit : option Z) (w : World) (d : Database) :
  db w = Some d ->
  answers w 1 ->
  list_models limit w
  = (Return
       (map listed
          (Mongo.limited (Py.or_int limit 10)
             (merge_sort (Mongo.desc "updated_at") (Mongo.coll d "modelfile")))),
     after_calls w [Find "modelfile"]).
Proof.
  destruct w as [d0 clk rd flt lg]. simpl. intros -> Ha.
  apply answers_0 in Ha. simpl in Ha.
  run. rewrite Ha. run.
  unfold Mongo.limit, Mongo.sort, Mongo.find.
  cbn [Mongo.c_coll Mongo.c_filter Mongo.c_excluded Mongo.c_sort Mongo.c_limit].
  rewrite sorted_desc, filter_matches_all. unfold after_calls.
  cbn [db clock reads fault log]. by rewrite map_map.
Qed.

Lemma length_limited (n : Z) (l : list document) :
  n <> 0 -> (length (Mongo.limited n l) <= Z.to_nat (Z.abs n))%nat.
Proof.
  intros Hn. unfold Mongo.limited.
  destruct (Z.eqb_spec n 0); [done|]. rewrite length_take. lia.
Qed.

Lemma limited_sublist (n : Z) (l : list document) :
  sublist (Mongo.limited n l) l.
Proof.
  unfold Mongo.limited. destruct (n =? 0); [done|]. apply sublist_take.
Qed.

Lemma listed_updated_at (x : document) :
  listed x !! "updated_at" = fields x !! "updated_at".
Proof.
  unfold listed, with_id, Mongo.project_out. simpl.
  rewrite lookup_insert_ne by done. by rewrite lookup_delete_ne.
Qed.

Lemma listed_no_payload (x : document) : listed x !! "data_b64" = None.
Proof.
  unfold listed, with_id, Mongo.project_out. simpl.
  rewrite lookup_insert_ne by done. by rewrite lookup_delete_eq.
Qed.

Lemma listed_newer_first (l : list document) :
  StronglySorted (Mongo.desc "updated_at") l ->
  StronglySorted newer_first (map listed l).
Proof.
  induction 1 as [|x l Hs IH Hall]; simpl; constructor; [done|].
  apply Forall_forall. intros r Hr.
  apply list_elem_of_fmap in Hr as (y & -> & Hy).
  unfold newer_first. rewrite !listed_updated_at.
  by apply (proj1 (Forall_forall _ _) Hall y).
Qed.

Lemma StronglySorted_sublist {A} (R : relation A) (l1 l2 : list A) :
  sublist l1 l2 -> StronglySorted R l2 -> StronglySorted R l1.
Proof.
  induction 1 as [|x l1 l2 Hsub IH|x l1 l2 Hsub IH]; intros Hs.
  - constructor.
  - apply StronglySorted_inv in Hs as [Hs Hall]. constructor; [by apply IH|].
    apply Forall_forall. intros y Hy.
    apply (proj1 (Forall_forall _ _) Hall y). by eapply elem_of_sublist.
  - apply StronglySorted_inv in Hs as [Hs _]. by apply IH.
Qed.

(** The listing the store gives for a limit: sorted, drawn from the
    collection, without the payload. *)
Lemma listing_facts (n : Z) (l : list document) :
  let out :=
    map listed (Mongo.limited n (merge_sort (Mongo.desc "updated_at") l)) in
  StronglySorted newer_first out
  /\ Forall (fun r => r !! "data_b64" = None) out
  /\ Forall (fun r => exists x, x ∈ l /\ r = listed x) out.
Proof.
  intros out. subst out. split; [|split].
  - apply listed_newer_first.
    eapply StronglySorted_sublist; [apply limited_sublist|].
    apply StronglySorted_merge_sort; apply _.
  - apply Forall_forall. intros r Hr.
    apply list_elem_of_fmap in Hr as (x & -> & _). apply listed_no_payload.
  - apply Forall_forall. intros r Hr.
    apply list_elem_of_fmap in Hr as (x & -> & Hx). exists x. split; [|done].
    eapply elem_of_sublist in Hx; [|apply limited_sublist].
    by rewrite merge_sort_Permutation in Hx.
Qed.

(** C5, as the code has it.  With the store connected and answering,
    [GET /api/models] is a 200 whose records are ordered by [updated_at],
    most recent first, are records of [modelfile] given with a string id,
    and have no [data_b64] field.  Their number is at most [limit] when
    [limit] is positive and at most 10 when the parameter is absent or is
    0. *)
Theorem list_files_capped (limit : option Z) (w : World) (d : Database) :
  db w = Some d ->
  answers w 1 ->
  exists l w',
    GET_api_models limit w = (MkResponse 200 (JList l), w')
    /\ db w' = Some d
    /\ (forall n, limit = Some n -> 0 < n -> (length l <= Z.to_nat n)%nat)
    /\ (limit = None \/ limit = Some 0 -> (length l <= 10)%nat)
    /\ StronglySorted newer_first l
    /\ Forall (fun r => r !! "data_b64" = None) l
    /\ Forall (fun r => exists x, x ∈ Mongo.coll d "modelfile" /\ r = listed x) l.
Proof.
  intros Hd Ha. unfold GET_api_models, respond.
  rewrite (list_models_run _ w d Hd Ha).
  eexists _, _. split; [reflexivity|]. split; [done|].
  destruct (listing_facts (Py.or_int (Some (default 10 limit)) 10)
              (Mongo.coll d "modelfile")) as (Hs & Hp & Hin).
  repeat split; try done.
  - intros n -> Hn. rewrite length_map. simpl.
    destruct n as [|p|p]; try lia.
    etrans; [apply length_limited; lia|]. lia.
  - intros Hl. rewrite length_map.
    assert (Py.or_int (Some (default 10 limit)) 10 = 10) as ->
      by (destruct Hl as [-> | ->]; done).
    etrans; [apply length_limited; lia|]. simpl. lia.
Qed.

Lemma list_files_capped_witness :
  exists l w',
    GET_api_models (Some 5) Sample.w_many = (MkResponse 200 (JList l), w')
    /\ db w' = db Sample.w_many
    /\ (length l <= 5)%nat
    /\ StronglySorted newer_first l
    /\ Forall (fun r => r !! "data_b64" = None) l.
Proof.
  destruct (list_files_capped (Some 5) Sample.w_many
              (default (MkDatabase ∅ 1) (db Sample.w_many)))
    as (l & w' & H1 & H2 & H3 & _ & H6 & H7 & _).
  - reflexivity.
  - intros i Hi. reflexivity.
  - exists l, w'.
    split; [exact H1|]. split; [exact H2|].
    split; [apply (H3 5 eq_refl); lia|]. split; [exact H6|exact H7].
Defined.

(** C5 as stated fails at [limit = 0]: with one stored record, the listing
    for a limit of 0 has one record, which is more than 0. *)
Lemma list_files_limit_zero_counterexample :
  exists l,
    fst (GET_api_models (Some 0) Sample.w1) = MkResponse 200 (JList l)
    /\ length l = 1%nat
    /\ ~ (Z.of_nat (length l) <= 0).
Proof.
  eexists. split; [vm_compute; reflexivity|]. split; [reflexivity|].
  simpl. lia.
Qed.

(** ** Rejected uploads *)

(** C6, as the code has it.  An upload whose file name, lower-cased, does
    not end in ".zip", and an upload without content, are answered with a
    400; the world is left as it was: no call to the store is issued and
    the database is the same. *)
Theorem rejected_upload_leaves_store (file : UploadFile) (w : World) :
  Py.endswith (Py.lower (filename file)) ".zip" = false \/ content file = [] ->
  exists detail,
    upload_model file w = (Raise (HTTPException 400 detail), w)
    /\ POST_api_models file w = (MkResponse 400 (JDetail detail), w).
Proof.
  intros H. unfold POST_api_models, respond.
  destruct (Py.endswith (Py.lower (filename file)) ".zip") eqn:Ez.
  - destruct H as [H|H]; [done|].
    exists "Empty file". run. rewrite Ez, H. by run.
  - exists "File must be a .zip archive". run. rewrite Ez. by run.
Qed.

Lemma rejected_upload_leaves_store_witness :
  exists detail,
    upload_model Sample.notes_txt Sample.w1
    = (Raise (HTTPException 400 detail), Sample.w1)
    /\ POST_api_models Sample.notes_txt Sample.w1
       = (MkResponse 400 (JDetail detail), Sample.w1).
Proof.
  apply (rejected_upload_leaves_store Sample.notes_txt Sample.w1).
  left. vm_compute. reflexivity.
Defined.

(** C6 as stated fails for a name that ends in ".ZIP": it does not end in
    ".zip", and yet the upload is accepted with a 200 and the store is
    written to. *)
Lemma upper_case_extension_counterexample :
  Py.endswith (filename Sample.upper_zip) ".zip" = false
  /\ (exists r, fst (POST_api_models Sample.upper_zip Sample.w0)
                = MkResponse 200 (JDict r))
  /\ log (snd (POST_api_models Sample.upper_zip Sample.w0))
     = [UpdateMany "modelfile"; UpdateMany "modelconfig"; InsertOne "modelfile"]
  /\ status (fst (POST_api_models Sample.upper_zip Sample.w0)) <> 400.
Proof.
  split; [vm_compute; reflexivity|].
  split; [eexists; vm_compute; reflexivity|].
  split; [vm_compute; reflexivity|].
  vm_compute. discriminate.
Qed.

(** ** Store failures *)

Lemma try_except_wraps {A} (body : M A) (h : exn -> M A) (w w' : World)
    (e : exn) :
  (forall e0 w0 o w1, h e0 w0 = (o, w1) ->
     exists c d, o = Raise (HTTPException c d)) ->
  try_except body h w = (Raise e, w') ->
  exists c d, e = HTTPException c d.
Proof.
  intros Hh. unfold try_except.
  destruct (body w) as [[a|e0] w0]; [done|]. intros H.
  destruct (Hh _ _ _ _ H) as (c & d & [= ->]). eauto.
Qed.

(** Whatever [upload_model] raises is an [HTTPException]. *)
Lemma upload_model_raises_http (file : UploadFile) (w w' : World) (e : exn) :
  upload_model file w = (Raise e, w') -> exists c d, e = HTTPException c d.
Proof.
  intros H.
  cbv beta iota delta [upload_model bind read ret raise negb] in H.
  destruct (Py.endswith _ _); [|injection H as <- _; eauto].
  destruct (length (content file) =? 0)%nat; [injection H as <- _; eauto|].
  eapply try_except_wraps; [|exact H].
  intros e0 w0 o w1 [= <- _]. eauto.
Qed.

Lemma nonempty_length (bs : list Byte.byte) :
  bs <> [] -> (length bs =? 0)%nat = false.
Proof. by destruct bs. Qed.

Lemma size_not_negative (bs : list Byte.byte) :
  (Z.of_nat (length bs) <? 0) = false.
Proof. apply Z.ltb_ge. lia. Qed.

(** C7, as the code has it.  In [upload_model] a failure of any of its
    three store calls is caught and answered with a 500 whose detail is
    "Failed to store model: " followed by the whole message of the failure;
    and nothing but an [HTTPException] ever leaves [upload_model]. *)
Theorem upload_wraps_store_errors (file : UploadFile) (w : World)
    (d : Database) (k : nat) (msg : string) :
  db w = Some d ->
  Py.endswith (Py.lower (filename file)) ".zip" = true ->
  content file <> [] ->
  (k < 3)%nat ->
  answers w k ->
  fault w (length (log w) + k)%nat = Some msg ->
  (exists w',
     upload_model file w
     = (Raise (HTTPException 500 ("Failed to store model: " +:+ msg)), w')
     /\ POST_api_models file w
        = (MkResponse 500 (JDetail ("Failed to store model: " +:+ msg)), w'))
  /\ (forall w0 w1 e, upload_model file w0 = (Raise e, w1) ->
        exists c detail, e = HTTPException c detail).
Proof.
  intros Hd Ez Hc Hk Ha Hf. split; [|intros w0 w1 e; apply upload_model_raises_http].
  unfold POST_api_models, respond.
  pose proof (nonempty_length _ Hc) as El.
  pose proof (size_not_negative (content file)) as Es.
  destruct w as [d0 clk rd flt lg]. simpl in Hd, Hf. subst d0.
  destruct k as [|[|[|k]]]; [| | |lia].
  - rewrite Nat.add_0_r in Hf.
    eexists. run. rewrite Ez. run. rewrite El. run. rewrite Es. run.
    rewrite Hf. run. split; reflexivity.
  - rewrite Nat.add_1_r in Hf.
    pose proof (answers_0 _ _ Ha) as F0. simpl in F0.
    eexists. run. rewrite Ez. run. rewrite El. run. rewrite Es. run.
    rewrite F0. run. rewrite Hf. run. split; reflexivity.
  - replace (length lg + 2)%nat with (S (S (length lg))) in Hf by lia.
    pose proof (answers_0 _ _ Ha) as F0. pose proof (answers_1 _ _ Ha) as F1.
    simpl in F0, F1.
    eexists. run. rewrite Ez. run. rewrite El. run. rewrite Es. run.
    rewrite F0. run. rewrite F1. run. rewrite encodable_file. run.
    rewrite Hf. run. split; reflexivity.
Qed.

Lemma upload_wraps_store_errors_witness :
  (exists w',
     upload_model Sample.model_zip Sample.w_down
     = (Raise (HTTPException 500
                 ("Failed to store model: " +:+ Sample.refusal)), w')
     /\ POST_api_models Sample.model_zip Sample.w_down
        = (MkResponse 500
             (JDetail ("Failed to store model: " +:+ Sample.refusal)), w'))
  /\ (forall w0 w1 e, upload_model Sample.model_zip w0 = (Raise e, w1) ->
        exists c detail, e = HTTPException c detail).
Proof.
  apply (upload_wraps_store_errors Sample.model_zip Sample.w_down
           (MkDatabase ∅ 1) 0 Sample.refusal).
  - reflexivity.
  - vm_compute. reflexivity.
  - discriminate.
  - lia.
  - intros i Hi. lia.
  - reflexivity.
Defined.

(** C7 as stated fails twice over.  [set_model_url], [get_active_model] and
    [list_models] do not catch what the store raises: the exception leaves
    the handler as it is.  And [upload_model], which does catch it, puts the
    whole message, here 139 characters, in the detail. *)
Lemma store_errors_counterexample :
  fst (set_model_url Sample.http_only Sample.payload0 Sample.w_down)
  = Raise (StoreError Sample.refusal)
  /\ fst (get_active_model Sample.w_down) = Raise (StoreError Sample.refusal)
  /\ fst (list_models (Some 10) Sample.w_down)
     = Raise (StoreError Sample.refusal)
  /\ fst (upload_model Sample.model_zip Sample.w_down)
     = Raise (HTTPException 500 ("Failed to store model: " +:+ Sample.refusal))
  /\ String.length Sample.refusal = 139%nat.
Proof. repeat split; vm_compute; reflexivity. Qed.

(** ** Requests that are not a [UrlPayload] *)

(** C8, as the code has it.  A body whose [url] field is absent, is not a
    text, or is a text the URL validator refuses, is answered with the
    framework's validation error, a 422, before [set_model_url] runs; the
    world is left as it was. *)
Theorem invalid_url_rejected HttpUrl (json : pydict) (w : World) :
  (forall s, json !! "url" = Some (VStr s) -> HttpUrl s = None) ->
  parse_UrlPayload HttpUrl json = None
  /\ exists detail,
       POST_api_models_url HttpUrl json w = (MkResponse 422 (JDetail detail), w).
Proof.
  intros H.
  assert (parse_UrlPayload HttpUrl json = None) as Hp.
  { unfold parse_UrlPayload.
    destruct (json !! "url") as [[| | |s| | |]|]; try done.
    by rewrite (H s eq_refl). }
  split; [done|]. unfold POST_api_models_url. rewrite Hp. eauto.
Qed.

Lemma invalid_url_rejected_witness :
  parse_UrlPayload Sample.http_only {[ "url" := VStr "not a url" ]} = None
  /\ exists detail,
       POST_api_models_url Sample.http_only {[ "url" := VStr "not a url" ]}
         Sample.w1
       = (MkResponse 422 (JDetail detail), Sample.w1).
Proof.
  apply (invalid_url_rejected Sample.http_only {[ "url" := VStr "not a url" ]}
           Sample.w1).
  intros s Hs. vm_compute in Hs. injection Hs as <-. reflexivity.
Defined.

(** C8 as stated fails on the status: the answer to a text that is no URL
    is a 422, not a 400. *)
Lemma invalid_url_status_counterexample :
  Sample.http_only "not a url" = None
  /\ status (fst (POST_api_models_url Sample.http_only
                    {[ "url" := VStr "not a url" ]} Sample.w1)) = 422
  /\ status (fst (POST_api_models_url Sample.http_only
                    {[ "url" := VStr "not a url" ]} Sample.w1)) <> 400.
Proof.
  split; [reflexivity|]. split; [vm_compute; reflexivity|].
  vm_compute. discriminate.
Qed.

(** ** Timestamps *)

Lemma id_deactivate (now : Z) (x : document) : _id (deactivate now x) = _id x.
Proof. unfold deactivate. by destruct (Mongo.matches _ _). Qed.







(** ** The stored payload *)

(** C10.  In the record a completed upload stores, [data_b64] is the
    Base64 text of the uploaded bytes, decoding that text gives the
    uploaded bytes back, and [size], stored and returned, is their
    number. *)
Theorem stored_payload_round_trip (file : UploadFile) (w w' : World)
    (r : pydict) :
  upload_model file w = (Return r, w') ->
  exists d d' new,
    db w = Some d /\ db w' = Some d'
    /\ last (Mongo.coll d' "modelfile") = Some new
    /\ r !! "id" = Some (VStr (Mongo.str_oid (_id new)))
    /\ fields new !! "data_b64"
       = Some (VStr (Base64.b64encode (content file)))
    /\ (forall s, fields new !! "data_b64" = Some (VStr s) ->
        Base64.b64decode s = Some (content file))
    /\ fields new !! "size" = Some (VInt (Z.of_nat (length (content file))))
    /\ r !! "size" = Some (VInt (Z.of_nat (length (content file)))).
Proof.
  intros H.
  apply upload_model_Return in H as (d & Hd & _ & _ & _ & -> & ->).
  eexists d, _, _. split; [done|]. split; [reflexivity|].
  split; [rewrite coll_inserted; by rewrite last_snoc|].
  assert ((<["updated_at" := VDate (clock w (S (S (reads w))))]>
             (model_dump (doc_of file)) : pydict) !! "data_b64"
          = Some (VStr (Base64.b64encode (content file)))) as Hb.
  { rewrite lookup_insert_ne by done. unfold model_dump. simpl.
    by simplify_map_eq. }
  split; [done|]. split; [exact Hb|]. split.
  { intros s Hs. cbn [fields] in Hs. rewrite Hb in Hs. injection Hs as <-.
    apply Base64Facts.b64decode_b64encode. }
  split.
  - simpl. rewrite lookup_insert_ne by done. unfold model_dump. simpl.
    by simplify_map_eq.
  - unfold upload_response. by simplify_map_eq.
Qed.

Lemma stored_payload_round_trip_witness :
  exists d d' new,
    db Sample.w0 = Some d /\ db Sample.w1 = Some d'
    /\ last (Mongo.coll d' "modelfile") = Some new
    /\ upload_response Sample.model_zip 1 !! "id"
       = Some (VStr (Mongo.str_oid (_id new)))
    /\ fields new !! "data_b64"
       = Some (VStr (Base64.b64encode (content Sample.model_zip)))
    /\ (forall s, fields new !! "data_b64" = Some (VStr s) ->
        Base64.b64decode s = Some (content Sample.model_zip))
    /\ fields new !! "size" = Some (VInt 10)
    /\ upload_response Sample.model_zip 1 !! "size" = Some (VInt 10).
Proof.
  apply (stored_payload_round_trip Sample.model_zip Sample.w0 Sample.w1
           (upload_response Sample.model_zip 1)).
  apply run_outcome. vm_compute. reflexivity.
Defined.

(** ** The diagnostics object *)

(** A slice is a prefix, has the code points asked for when there are that
    many, and ends where a code point ends. *)
Lemma slice_to_prefix (n : nat) (s : string) :
  exists rest,
    s = Py.slice_to n s +:+ rest
    /\ Py.len (Py.slice_to n s) = Nat.min n (Py.len s)
    /\ (forall c r, rest = String c r -> Py.continues c = false).
Proof.
  revert n. induction s as [|c s IH]; intros n.
  - exists "". split; [done|]. split; [simpl; lia|done].
  - cbn [Py.slice_to Py.len]. destruct (Py.continues c) eqn:Ec.
    + destruct (IH n) as (rest & Hs & Hl & Hb). exists rest.
      split; [|split; [|exact Hb]].
      * change (String c s = String c (Py.slice_to n s +:+ rest)).
        by rewrite <- Hs.
      * cbn [Py.len]. by rewrite Ec.
    + destruct n as [|n].
      * exists (String c s). split; [done|]. split; [done|].
        intros c' r [= <- _]. exact Ec.
      * destruct (IH n) as (rest & Hs & Hl & Hb). exists rest.
        split; [|split; [|exact Hb]].
        -- change (String c s = String c (Py.slice_to n s +:+ rest)).
           by rewrite <- Hs.
        -- cbn [Py.len]. rewrite Ec, Hl. lia.
Qed.

(** X1. When listing the collections fails, [test_database] still answers:
    the [database] field is the fixed prefix followed by the first 50 code
    points of the failure's message (all of it when it has fewer), cut
    where a code point ends; the connection is reported as made and no
    collection is listed. *)
Theorem diagnostics_error_truncated (h : Diagnostics.handle)
    (getenv : string -> option string) (e : exn) :
  Diagnostics.list_collection_names h = Raise e ->
  exists t rest,
    Diagnostics.test_database (Some h) getenv !! "database"
    = Some (Diagnostics.DStr ("⚠️  Connected but Error: " +:+ t))
    /\ str_exn e = t +:+ rest
    /\ Py.len t = Nat.min 50 (Py.len (str_exn e))
    /\ (forall c r, rest = String c r -> Py.continues c = false)
    /\ Diagnostics.test_database (Some h) getenv !! "connection_status"
       = Some (Diagnostics.DStr "Connected")
    /\ Diagnostics.test_database (Some h) getenv !! "collections"
       = Some (Diagnostics.DList []).
Proof.
  intros H.
  destruct (slice_to_prefix 50 (str_exn e)) as (rest & Hs & Hl & Hb).
  exists (Py.slice_to 50 (str_exn e)), rest.
  unfold Diagnostics.test_database. rewrite H. cbv zeta.
  repeat split; try done; by simplify_map_eq.
Qed.

Lemma diagnostics_error_truncated_witness :
  exists t rest,
    Diagnostics.test_database
      (Some (Diagnostics.Handle (Some "models")
               (Raise (StoreError Sample.accents)))) Sample.reliable_env
    !! "database"
    = Some (Diagnostics.DStr ("⚠️  Connected but Error: " +:+ t))
    /\ Sample.accents = t +:+ rest
    /\ Py.len Sample.accents = 60%nat
    /\ Py.len t = 50%nat
    /\ String.length t = 100%nat.
Proof.
  destruct (diagnostics_error_truncated
              (Diagnostics.Handle (Some "models")
                 (Raise (StoreError Sample.accents)))
              Sample.reliable_env (StoreError Sample.accents) eq_refl)
    as (t & rest & H1 & H2 & H3 & _).
  exists t, rest. split; [exact H1|]. split; [exact H2|].
  split; [reflexivity|]. split; [exact H3|].
  vm_compute in H1. injection H1 as <-. reflexivity.
Defined.

(** X2. When listing the collections works, [test_database] reports the
    first ten names the store gave, in the store's order, and all of them
    when there are at most ten. *)
Theorem diagnostics_collections_capped (h : Diagnostics.handle)
    (getenv : string -> option string) (names : list string) :
  Diagnostics.list_collection_names h = Return names ->
  exists shown,
    Diagnostics.test_database (Some h) getenv !! "collections"
    = Some (Diagnostics.DList shown)
    /\ (length shown <= 10)%nat
    /\ shown `prefix_of` names
    /\ ((length names <= 10)%nat -> shown = names)
    /\ Diagnostics.test_database (Some h) getenv !! "database"
       = Some (Diagnostics.DStr "✅ Connected & Working").
Proof.
  intros H. exists (take 10 names).
  unfold Diagnostics.test_database. rewrite H. cbv zeta.
  split; [by simplify_map_eq|]. split; [rewrite length_take; lia|].
  split; [apply prefix_take|]. split; [apply take_ge|by simplify_map_eq].
Qed.

Lemma diagnostics_collections_capped_witness :
  exists shown,
    Diagnostics.test_database
      (Some (Diagnostics.Handle None
               (Return ["a"; "b"; "c"; "d"; "e"; "f"; "g"; "h"; "i"; "j";
                        "k"; "l"]%string))) Sample.reliable_env
    !! "collections" = Some (Diagnostics.DList shown)
    /\ length shown = 10%nat.
Proof.
  destruct (diagnostics_collections_capped
              (Diagnostics.Handle None
                 (Return ["a"; "b"; "c"; "d"; "e"; "f"; "g"; "h"; "i"; "j";
                          "k"; "l"]%string))
              Sample.reliable_env _ eq_refl)
    as (shown & H1 & _).
  exists shown. split; [exact H1|].
  vm_compute in H1. injection H1 as <-. reflexivity.
Defined.

(** X3. Whatever the handle is and does, the [database_url] and
    [database_name] fields of the diagnostics say only whether the two
    environment variables are set to a non-empty text: what the handler
    wrote there from the handle (its name, "Configured") is overwritten.
    The object always has the same six fields. *)
Theorem diagnostics_environment_fields (db : option Diagnostics.handle)
    (getenv : string -> option string) :
  Diagnostics.test_database db getenv !! "database_url"
  = Some (Diagnostics.DStr
            (if Diagnostics.truthy (getenv "DATABASE_URL") then "✅ Set"
             else "❌ Not Set"))
  /\ Diagnostics.test_database db getenv !! "database_name"
     = Some (Diagnostics.DStr
               (if Diagnostics.truthy (getenv "DATABASE_NAME") then "✅ Set"
                else "❌ Not Set"))
  /\ Diagnostics.test_database db getenv !! "backend"
     = Some (Diagnostics.DStr "✅ Running")
  /\ dom (Diagnostics.test_database db getenv)
     = ({[ "backend"; "database"; "database_url"; "database_name";
           "connection_status"; "collections" ]} : gset string).
Proof.
  unfold Diagnostics.test_database.
  destruct db as [h|]; [destruct (Diagnostics.list_collection_names h)|];
    cbv zeta; repeat split; try (by simplify_map_eq);
    rewrite ?dom_insert_L, ?dom_singleton_L; set_solver.
Qed.

(** Without a handle, [test_database] reports the store as not initialized
    and not connected, with no collections. *)
Lemma diagnostics_without_handle (getenv : string -> option string) :
  Diagnostics.test_database None getenv !! "database"
  = Some (Diagnostics.DStr "⚠️  Available but not initialized")
  /\ Diagnostics.test_database None getenv !! "connection_status"
     = Some (Diagnostics.DStr "Not Connected")
  /\ Diagnostics.test_database None getenv !! "collections"
     = Some (Diagnostics.DList []).
Proof.
  unfold Diagnostics.test_database. cbv zeta. repeat split; by simplify_map_eq.
Qed.

(** ** Every way the reading handlers can end *)

Lemma get_active_model_cases (w w' : World) (o : outcome pydict) :
  get_active_model w = (o, w') ->
  db w' = db w /\ clock w' = clock w /\ reads w' = reads w
  /\ fault w' = fault w
  /\ ((o = Raise (HTTPException 500 "Database not available")
       /\ db w = None /\ log w' = log w)
      \/ (exists msg, o = Raise (StoreError msg)
          /\ (log w' = log w ++ [FindOne "modelconfig"]
              \/ log w' = log w ++ [FindOne "modelconfig"; FindOne "modelfile"]))
      \/ (exists c, o = Return (url_view c)
          /\ log w' = log w ++ [FindOne "modelconfig"])
      \/ (exists f, o = Return (file_view f)
          /\ log w' = log w ++ [FindOne "modelconfig"; FindOne "modelfile"])
      \/ (o = Return {[ "active" := VBool false ]}
          /\ log w' = log w ++ [FindOne "modelconfig"; FindOne "modelfile"])).
Proof.
  destruct w as [d0 clk rd flt lg]. intros H. run_in H.
  destruct d0 as [d|]; run_in H;
    [|injection H as <- <-; repeat split; auto].
  destruct (flt (length lg)) as [msg|] eqn:F0; run_in H.
  { injection H as <- <-. repeat split. right. left. eauto. }
  destruct (head (Mongo.sorted _ _)) as [c|]; run_in H.
  { injection H as <- <-. repeat split. right. right. left. eauto. }
  destruct (flt (S (length lg))) as [msg|] eqn:F1; run_in H.
  { injection H as <- <-. repeat split. right. left. exists msg.
    split; [done|]. right. simpl. by rewrite <- app_assoc. }
  destruct (head (Mongo.sorted _ _)) as [f|]; run_in H;
    injection H as <- <-; repeat split; simpl; rewrite <- app_assoc.
  - right. right. right. left. eauto.
  - right. right. right. right. eauto.
Qed.

Lemma list_models_cases (limit : option Z) (w w' : World)
    (o : outcome (list pydict)) :
  list_models limit w = (o, w') ->
  db w' = db w /\ clock w' = clock w /\ reads w' = reads w
  /\ fault w' = fault w
  /\ ((o = Raise (HTTPException 500 "Database not available")
       /\ db w = None /\ log w' = log w)
      \/ (exists msg, o = Raise (StoreError msg)
          /\ log w' = log w ++ [Find "modelfile"])
      \/ (exists l, o = Return (map listed l)
          /\ log w' = log w ++ [Find "modelfile"])).
Proof.
  destruct w as [d0 clk rd flt lg]. intros H. run_in H.
  destruct d0 as [d|]; run_in H;
    [|injection H as <- <-; repeat split; auto].
  destruct (flt (length lg)) as [msg|] eqn:F0; run_in H.
  { injection H as <- <-. repeat split. right. left. eauto. }
  injection H as <- <-. repeat split. right. right.
  eexists. split; [|done]. by rewrite map_map.
Qed.




(** ** What the endpoints never do *)

Lemma queries_leave (limit : option Z) (w : World) :
  db (snd (get_active_model w)) = db w
  /\ db (snd (list_models limit w)) = db w.
Proof.
  destruct (get_active_model w) as [o1 w1] eqn:H1.
  destruct (list_models limit w) as [o2 w2] eqn:H2.
  apply get_active_model_cases in H1 as (Hd1 & _).
  apply list_models_cases in H2 as (Hd2 & _). done.
Qed.

(** X4. The two reading handlers, however they end, leave the database as
    it was and read no clock; the only store calls they issue are their own
    queries. *)
Theorem queries_leave_the_store (limit : option Z) (w : World) :
  db (snd (get_active_model w)) = db w
  /\ reads (snd (get_active_model w)) = reads w
  /\ db (snd (list_models limit w)) = db w
  /\ reads (snd (list_models limit w)) = reads w
  /\ (forall c, c ∈ log (snd (get_active_model w)) ->
        c ∈ log w \/ c = FindOne "modelconfig" \/ c = FindOne "modelfile")
  /\ (forall c, c ∈ log (snd (list_models limit w)) ->
        c ∈ log w \/ c = Find "modelfile").
Proof.
  destruct (get_active_model w) as [o1 w1] eqn:H1.
  destruct (list_models limit w) as [o2 w2] eqn:H2.
  apply get_active_model_cases in H1 as (Hd1 & _ & Hr1 & _ & Hl1).
  apply list_models_cases in H2 as (Hd2 & _ & Hr2 & _ & Hl2).
  simpl. repeat split; try done.
  - intros c Hc.
    destruct Hl1 as [(_ & _ & Hl)|[(msg & _ & [Hl|Hl])|[(x & _ & Hl)|
                    [(x & _ & Hl)|(_ & Hl)]]]];
      rewrite Hl in Hc;
      rewrite ?elem_of_app, ?elem_of_cons, ?elem_of_nil, ?app_nil_r in Hc;
      tauto.
  - intros c Hc.
    destruct Hl2 as [(_ & _ & Hl)|[(msg & _ & Hl)|(x & _ & Hl)]];
      rewrite Hl in Hc;
      rewrite ?elem_of_app, ?elem_of_cons, ?elem_of_nil, ?app_nil_r in Hc;
      tauto.
Qed.

(** X5. Without a store handle every registry endpoint answers 500 and
    leaves the world as it was: no clock is read and no store call is
    issued.  The detail is "Database not available", except for an upload:
    there the 500 is raised inside the [try], so what the client gets, once
    the name and the content have been accepted, is that exception wrapped
    by the handler, "Failed to store model: 500: Database not available". *)
Theorem no_handle_is_a_500 HttpUrl (file : UploadFile) (payload : UrlPayload)
    (limit : option Z) (w : World) :
  db w = None ->
  (Py.endswith (Py.lower (filename file)) ".zip" = true ->
   content file <> [] ->
   POST_api_models file w
   = (MkResponse 500
        (JDetail "Failed to store model: 500: Database not available"), w))
  /\ respond JDict (set_model_url HttpUrl payload) w
     = (MkResponse 500 (JDetail "Database not available"), w)
  /\ GET_api_models_active w
     = (MkResponse 500 (JDetail "Database not available"), w)
  /\ GET_api_models limit w
     = (MkResponse 500 (JDetail "Database not available"), w).
Proof.
  destruct w as [d0 clk rd flt lg]. simpl. intros ->.
  unfold POST_api_models, GET_api_models_active, GET_api_models.
  split; [|repeat split; by run].
  intros Ez Hc. pose proof (nonempty_length _ Hc) as El.
  pose proof (size_not_negative (content file)) as Es.
  run. rewrite Ez. run. rewrite El. run. rewrite Es. run.
  change (str_exn (HTTPException 500 "Database not available"))
    with (pretty 500 +:+ ": Database not available").
  replace (pretty 500) with "500" by (vm_compute; reflexivity).
  reflexivity.
Qed.

Lemma no_handle_is_a_500_witness :
  POST_api_models Sample.model_zip Sample.w_unset
  = (MkResponse 500
       (JDetail "Failed to store model: 500: Database not available"),
     Sample.w_unset)
  /\ respond JDict (set_model_url Sample.http_only Sample.payload0)
       Sample.w_unset
     = (MkResponse 500 (JDetail "Database not available"), Sample.w_unset)
  /\ GET_api_models_active Sample.w_unset
     = (MkResponse 500 (JDetail "Database not available"), Sample.w_unset)
  /\ GET_api_models None Sample.w_unset
     = (MkResponse 500 (JDetail "Database not available"), Sample.w_unset).
Proof.
  destruct (no_handle_is_a_500 Sample.http_only Sample.model_zip
              Sample.payload0 None Sample.w_unset eq_refl)
    as (H1 & H2 & H3 & H4).
  split; [|split; [exact H2|split; [exact H3|exact H4]]].
  apply H1; [vm_compute; reflexivity|discriminate].
Defined.





(** ** How many records a listing has, and what is in them *)

Lemma listed_fields (x : document) :
  listed x !! "id" = Some (VStr (Mongo.str_oid (_id x)))
  /\ forall k, k <> "id" -> k <> "data_b64" -> listed x !! k = fields x !! k.
Proof.
  unfold listed, with_id, Mongo.project_out. simpl. split.
  - by rewrite lookup_insert_eq.
  - intros k H1 H2. rewrite lookup_insert_ne by done.
    by rewrite lookup_delete_ne.
Qed.

Lemma limited_all (n : Z) (l : list document) :
  0 < n -> (length l <= Z.to_nat n)%nat -> Mongo.limited n l = l.
Proof.
  intros Hn Hl. unfold Mongo.limited.
  destruct (Z.eqb_spec n 0); [lia|]. apply take_ge. lia.
Qed.

Lemma length_limited_exact (n : Z) (l : list document) :
  0 < n -> length (Mongo.limited n l) = Nat.min (Z.to_nat n) (length l).
Proof.
  intros Hn. unfold Mongo.limited.
  destruct (Z.eqb_spec n 0); [lia|]. rewrite length_take. lia.
Qed.

(** X8. With the store connected and answering and a limit that is absent
    or not negative, [GET /api/models] returns exactly as many records as
    the cap allows (the limit, or 10 when it is absent or 0) or as
    [modelfile] holds, whichever is smaller; when the cap is not below the
    number of stored records, every stored record is returned.  Each
    returned record has the string form of a stored record's [_id] under
    "id" and that record's own fields under every other name but
    "data_b64". *)
Theorem list_files_count (limit : option Z) (w : World) (d : Database)
    (cap : Z) :
  db w = Some d ->
  answers w 1 ->
  0 <= default 10 limit ->
  cap = (if default 10 limit =? 0 then 10 else default 10 limit) ->
  exists l w',
    GET_api_models limit w = (MkResponse 200 (JList l), w')
    /\ length l = Nat.min (Z.to_nat cap) (length (Mongo.coll d "modelfile"))
    /\ ((length (Mongo.coll d "modelfile") <= Z.to_nat cap)%nat ->
        l ≡ₚ map listed (Mongo.coll d "modelfile"))
    /\ Forall
         (fun r =>
            exists x,
              x ∈ Mongo.coll d "modelfile"
              /\ r !! "id" = Some (VStr (Mongo.str_oid (_id x)))
              /\ forall k, k <> "id" -> k <> "data_b64" ->
                           r !! k = fields x !! k) l.
Proof.
  intros Hd Ha Hn ->. unfold GET_api_models, respond.
  rewrite (list_models_run _ w d Hd Ha).
  assert (Py.or_int (Some (default 10 limit)) 10
          = (if default 10 limit =? 0 then 10 else default 10 limit)) as ->.
  { simpl. by destruct (default 10 limit). }
  set (cap := if default 10 limit =? 0 then 10 else default 10 limit).
  assert (0 < cap) as Hcap.
  { subst cap. destruct (Z.eqb_spec (default 10 limit) 0); lia. }
  pose proof (merge_sort_Permutation (Mongo.desc "updated_at")
                (Mongo.coll d "modelfile")) as Hp.
  eexists _, _. split; [reflexivity|]. split; [|split].
  - rewrite length_map, length_limited_exact by done. by rewrite Hp.
  - intros Hl. rewrite limited_all; [by rewrite Hp|done|by rewrite Hp].
  - destruct (listing_facts cap (Mongo.coll d "modelfile")) as (_ & _ & Hin).
    eapply Forall_impl; [exact Hin|]. simpl.
    intros r (x & Hx & ->). exists x. split; [done|]. apply listed_fields.
Qed.

Lemma list_files_count_witness :
  exists l w',
    GET_api_models None Sample.w_many = (MkResponse 200 (JList l), w')
    /\ length l = 10%nat.
Proof.
  destruct (list_files_count None Sample.w_many
              (default (MkDatabase ∅ 1) (db Sample.w_many)) 10)
    as (l & w' & H1 & H2 & _).
  - reflexivity.
  - intros i Hi. reflexivity.
  - simpl. lia.
  - reflexivity.
  - exists l, w'. split; [exact H1|]. rewrite H2. vm_compute. reflexivity.
Defined.

(** ** When an activation completes, and what a failed one leaves *)

Lemma answers_2 (w : World) (k : nat) :
  answers w (S (S (S k))) -> fault w (S (S (length (log w)))) = None.
Proof.
  intros H. specialize (H 2%nat).
  replace (length (log w) + 2)%nat with (S (S (length (log w)))) in H by lia.
  apply H. lia.
Qed.

Lemma upload_model_succeeds (file : UploadFile) (w : World) (d : Database) :
  db w = Some d ->
  Py.endswith (Py.lower (filename file)) ".zip" = true ->
  content file <> [] ->
  answers w 3 ->
  upload_model file w
  = (Return (upload_response file (next_oid d)),
     activated "modelfile" (model_dump (doc_of file)) w d).
Proof.
  intros Hd Ez Hc Ha.
  pose proof (nonempty_length _ Hc) as El.
  pose proof (size_not_negative (content file)) as Es.
  pose proof (answers_0 _ _ Ha) as F0. pose proof (answers_1 _ _ Ha) as F1.
  pose proof (answers_2 _ _ Ha) as F2.
  destruct w as [d0 clk rd flt lg]. simpl in Hd, F0, F1, F2. subst d0.
  run. rewrite Ez. run. rewrite El. run. rewrite Es. run.
  rewrite F0. run. rewrite F1. run. rewrite encodable_file. run.
  rewrite F2. run. reflexivity.
Qed.

(** X9. An upload completes exactly when the store handle is set, the name
    passes the extension test, the content is not empty and the store
    answers the three calls; it then returns the metadata of the record
    under the store's next id.  (The third call is the insert made by
    [create_document].) *)
Theorem upload_completes_exactly_when (file : UploadFile) (w : World) :
  ((exists r w', upload_model file w = (Return r, w'))
   <-> is_Some (db w)
       /\ Py.endswith (Py.lower (filename file)) ".zip" = true
       /\ content file <> []
       /\ answers w 3)
  /\ (forall r w' d, upload_model file w = (Return r, w') -> db w = Some d ->
        r = upload_response file (next_oid d)).
Proof.
  split; [split|].
  - intros (r & w' & H).
    apply upload_model_Return in H as (d & Hd & Ez & Hc & Ha & _).
    rewrite Hd. eauto.
  - intros ([d Hd] & Ez & Hc & Ha).
    eexists _, _. by apply (upload_model_succeeds file w d).
  - intros r w' d H Hd.
    apply upload_model_Return in H as (d0 & Hd0 & _ & _ & _ & _ & ->).
    rewrite Hd in Hd0. by injection Hd0 as <-.
Qed.



(** ** A replaced upload stays in the list *)

Lemma deactivate_active_fields (now : Z) (x : document) :
  is_active x = true ->
  fields (deactivate now x) !! "active" = Some (VBool false)
  /\ forall k, k <> "active" -> k <> "updated_at" ->
               fields (deactivate now x) !! k = fields x !! k.
Proof.
  intros H. unfold deactivate. rewrite matches_active_filter, H.
  unfold Mongo.apply_set, deactivation. simpl. split.
  - erewrite lookup_union_Some_l; [done|]. by rewrite lookup_insert_eq.
  - intros k H1 H2. apply lookup_union_r.
    rewrite lookup_insert_ne by done. by rewrite lookup_singleton_ne.
Qed.

Lemma stored_upload_fields (t : Z) (file : UploadFile) :
  (<["updated_at" := VDate t]> (model_dump (doc_of file)) : pydict) !! "name"
  = Some (VStr (filename file))
  /\ (<["updated_at" := VDate t]> (model_dump (doc_of file)) : pydict) !! "size"
     = Some (VInt (Z.of_nat (length (content file)))).
Proof.
  rewrite !lookup_insert_ne by done. unfold model_dump. simpl.
  split; by simplify_map_eq.
Qed.

(** X11. An upload that is then replaced by another upload stays in the
    store: with fewer than nine files stored before, the listing after the
    two requests has two records more than before; among them is the first
    upload, under the id it returned, with its name and size and with
    [active] false, and the second, under its own id, with [active] true.
    (Both requests store through [create_document].) *)
Theorem replaced_upload_stays_listed (file file2 : UploadFile)
    (w w1 w2 : World) (r r2 : pydict) (d : Database) :
  db w = Some d ->
  (length (Mongo.coll d "modelfile") < 9)%nat ->
  upload_model file w = (Return r, w1) ->
  upload_model file2 w1 = (Return r2, w2) ->
  answers w2 1 ->
  exists l w3 rec rec2,
    GET_api_models None w2 = (MkResponse 200 (JList l), w3)
    /\ length l = S (S (length (Mongo.coll d "modelfile")))
    /\ rec ∈ l
    /\ rec !! "id" = r !! "id"
    /\ rec !! "name" = Some (VStr (filename file))
    /\ rec !! "size" = Some (VInt (Z.of_nat (length (content file))))
    /\ rec !! "active" = Some (VBool false)
    /\ rec2 ∈ l
    /\ rec2 !! "id" = r2 !! "id"
    /\ rec2 !! "name" = Some (VStr (filename file2))
    /\ rec2 !! "active" = Some (VBool true).
Proof.
  intros Hd Hlen H1 H2 Ha.
  apply upload_model_Return in H1 as (d0 & Hd0 & _ & _ & _ & -> & ->).
  rewrite Hd in Hd0. injection Hd0 as <-.
  apply upload_model_Return in H2 as (d1' & Hd1 & _ & _ & _ & -> & ->).
  assert (d1' = inserted "modelfile"
                  (<["updated_at" := VDate (clock w (S (S (reads w))))]>
                     (model_dump (doc_of file)))
                  (deactivate_all (clock w (reads w)) (clock w (S (reads w))) d))
    as -> by (apply (inj Some); rewrite <- Hd1; reflexivity).
  clear Hd1.
  set (t1 := clock w (reads w)) in *. set (t2 := clock w (S (reads w))) in *.
  set (data := <["updated_at" := VDate (clock w (S (S (reads w))))]>
                 (model_dump (doc_of file)) : pydict) in *.
  set (new := Document (next_oid d) data).
  set (d1 := inserted "modelfile" data (deactivate_all t1 t2 d)) in *.
  set (w1 := activated "modelfile" (model_dump (doc_of file)) w d) in *.
  set (s1 := clock w1 (reads w1)) in *.
  set (s2 := clock w1 (S (reads w1))) in *.
  set (data2 := <["updated_at" := VDate (clock w1 (S (S (reads w1))))]>
                  (model_dump (doc_of file2)) : pydict) in *.
  set (new2 := Document (next_oid d1) data2).
  set (d2 := inserted "modelfile" data2 (deactivate_all s1 s2 d1)).
  assert (Mongo.coll d2 "modelfile"
          = map (deactivate s1)
              (map (deactivate t1) (Mongo.coll d "modelfile") ++ [new])
            ++ [new2]) as Hc.
  { subst d2. rewrite coll_inserted, coll_deactivate_all_modelfile.
    rewrite next_oid_deactivate_all. subst d1.
    by rewrite coll_inserted, coll_deactivate_all_modelfile,
         next_oid_deactivate_all. }
  assert (length (Mongo.coll d2 "modelfile")
          = S (S (length (Mongo.coll d "modelfile")))) as Hl.
  { rewrite Hc, length_snoc, length_map, length_snoc. by rewrite length_map. }
  assert (is_active new = true) as Hnew.
  { unfold is_active. simpl. by apply bool_decide_eq_true. }
  unfold GET_api_models, respond.
  rewrite (list_models_run _
             (activated "modelfile" (model_dump (doc_of file2)) w1 d1)
             d2 eq_refl Ha).
  pose proof (merge_sort_Permutation (Mongo.desc "updated_at")
                (Mongo.coll d2 "modelfile")) as Hp.
  change (Py.or_int (Some (default 10 None)) 10) with 10.
  rewrite limited_all; [|lia|rewrite Hp; lia].
  eexists _, _, (listed (deactivate s1 new)), (listed new2).
  split; [reflexivity|]. split; [by rewrite length_map, Hp|].
  destruct (listed_fields (deactivate s1 new)) as (Hid & Hk).
  destruct (deactivate_active_fields s1 new Hnew) as (Hact & Hsame).
  destruct (stored_upload_fields (clock w (S (S (reads w)))) file)
    as (Hname & Hsize).
  destruct (listed_fields new2) as (Hid2 & Hk2).
  destruct (stored_upload_fields (clock w1 (S (S (reads w1)))) file2)
    as (Hname2 & _).
  split; [|split; [|split; [|split; [|split; [|split; [|split; [|split]]]]]]].
  - apply list_elem_of_fmap_2. rewrite Hp, Hc. apply elem_of_app. left.
    apply list_elem_of_fmap_2. apply elem_of_app. right.
    by apply list_elem_of_singleton.
  - rewrite Hid, id_deactivate. unfold upload_response.
    by rewrite lookup_insert_eq.
  - rewrite Hk, Hsame by done. exact Hname.
  - rewrite Hk, Hsame by done. exact Hsize.
  - rewrite Hk by done. exact Hact.
  - apply list_elem_of_fmap_2. rewrite Hp, Hc. apply elem_of_app. right.
    by apply list_elem_of_singleton.
  - rewrite Hid2. unfold upload_response. by rewrite lookup_insert_eq.
  - rewrite Hk2 by done. exact Hname2.
  - rewrite Hk2 by done. subst new2 data2. cbn [fields].
    by rewrite lookup_insert_ne.
Qed.

Lemma replaced_upload_stays_listed_witness :
  exists l w3 rec rec2,
    GET_api_models None Sample.w_twice = (MkResponse 200 (JList l), w3)
    /\ length l = 3%nat
    /\ rec ∈ l
    /\ rec !! "id" = upload_response Sample.model_zip 4 !! "id"
    /\ rec !! "name" = Some (VStr "model.zip")
    /\ rec !! "size" = Some (VInt 10)
    /\ rec !! "active" = Some (VBool false)
    /\ rec2 ∈ l
    /\ rec2 !! "id" = upload_response Sample.upper_zip 5 !! "id"
    /\ rec2 !! "name" = Some (VStr "MODEL.ZIP")
    /\ rec2 !! "active" = Some (VBool true).
Proof.
  destruct (replaced_upload_stays_listed Sample.model_zip Sample.upper_zip
              Sample.w_race Sample.w_replaced Sample.w_twice
              (upload_response Sample.model_zip 4)
              (upload_response Sample.upper_zip 5)
              (default (MkDatabase ∅ 1) (db Sample.w_race)))
    as (l & w3 & rec & rec2 & H).
  - reflexivity.
  - vm_compute. lia.
  - apply run_outcome. vm_compute. reflexivity.
  - apply run_outcome. vm_compute. reflexivity.
  - intros i Hi. reflexivity.
  - exists l, w3, rec, rec2. exact H.
Defined.

(** ** The text an upload is stored as *)

Lemma length_by_three (n : nat) :
  ((S (S (S n)) + 2) / 3 = S ((n + 2) / 3))%nat.
Proof.
  replace (S (S (S n)) + 2)%nat with (n + 2 + 1 * 3)%nat by lia.
  rewrite Nat.div_add by lia. lia.
Qed.

Lemma digit_in_alphabet (n : N) :
  (n < 64)%N -> is_Some (Base64.sextet (Base64.digit n)).
Proof. intros H. destruct (Base64Facts.digit_facts n H) as [-> _]. eauto. Qed.

(** X12. The text [upload_model] stores for a content of [n] bytes has
    [4 * ceil(n / 3)] characters, each of them "=" or one of the 64
    characters of the alphabet, so plain ASCII; and two contents that differ
    are stored as texts that differ. *)
Theorem b64encode_shape (bs : list Byte.byte) :
  String.length (Base64.b64encode bs) = (4 * ((length bs + 2) / 3))%nat
  /\ Forall (fun c => c = Base64.pad \/ is_Some (Base64.sextet c))
       (list_ascii_of_string (Base64.b64encode bs))
  /\ forall bs', Base64.b64encode bs = Base64.b64encode bs' -> bs = bs'.
Proof.
  split; [|split].
  - induction bs as [|a|a b|a b c rest IH] using Base64Facts.by_triples;
      try reflexivity.
    cbn [Base64.b64encode String.length length].
    rewrite IH, length_by_three. lia.
  - induction bs as [|a|a b|a b c rest IH] using Base64Facts.by_triples.
    + constructor.
    + cbn [Base64.b64encode list_ascii_of_string].
      destruct (Base64Facts.sextets_range _
                  (Base64Facts.pack3_lt a Byte.x00 Byte.x00))
        as (R1 & R2 & _).
      repeat (constructor;
                [first [right; by apply digit_in_alphabet | by left]|]).
      constructor.
    + cbn [Base64.b64encode list_ascii_of_string].
      destruct (Base64Facts.sextets_range _
                  (Base64Facts.pack3_lt a b Byte.x00))
        as (R1 & R2 & R3 & _).
      repeat (constructor;
                [first [right; by apply digit_in_alphabet | by left]|]).
      constructor.
    + cbn [Base64.b64encode list_ascii_of_string].
      destruct (Base64Facts.sextets_range _ (Base64Facts.pack3_lt a b c))
        as (R1 & R2 & R3 & R4).
      repeat (constructor; [right; by apply digit_in_alphabet|]). exact IH.
  - intros bs' H. apply (inj Some).
    rewrite <- (Base64Facts.b64decode_b64encode bs), H.
    apply Base64Facts.b64decode_b64encode.
Qed.

(** ** Which names pass the extension test *)

Lemma string_length_app (a b : string) :
  String.length (a +:+ b) = (String.length a + String.length b)%nat.
Proof. induction a as [|c a IH]; simpl; [done|by rewrite IH]. Qed.

Lemma substring_all (s : string) : substring 0 (String.length s) s = s.
Proof. induction s as [|c s IH]; simpl; [done|by rewrite IH]. Qed.

Lemma endswith_cons (c : ascii) (s suf : string) :
  Py.endswith (String c s) suf
  = if (String.length suf <=? String.length s)%nat then Py.endswith s suf
    else String.eqb (String c s) suf.
Proof.
  unfold Py.endswith. cbn [String.length].
  destruct (Nat.leb_spec (String.length suf) (String.length s)) as [Hle|Hgt].
  - rewrite (proj2 (Nat.leb_le _ _)) by lia.
    replace (S (String.length s) - String.length suf)%nat
      with (S (String.length s - String.length suf)) by lia.
    done.
  - destruct (Nat.leb_spec (String.length suf) (S (String.length s)))
      as [Hle|Hgt'].
    + assert (String.length suf = S (String.length s)) as E by lia.
      rewrite E, Nat.sub_diag.
      change (substring 0 (S (String.length s)) (String c s))
        with (String c (substring 0 (String.length s) s)).
      by rewrite substring_all.
    + symmetry. apply String.eqb_neq. intros E.
      rewrite <- E in Hgt'. cbn [String.length] in Hgt'. lia.
Qed.

(** [endswith] is what its name says. *)
Lemma endswith_spec (s suf : string) :
  Py.endswith s suf = true <-> exists p, s = p +:+ suf.
Proof.
  induction s as [|c s IH].
  - unfold Py.endswith. destruct suf as [|a suf]; simpl.
    + split; [by exists ""|done].
    + split; [done|]. intros (p & Hp). by destruct p.
  - rewrite endswith_cons.
    destruct (Nat.leb_spec (String.length suf) (String.length s)) as [Hle|Hgt].
    + rewrite IH. split.
      * intros (p & ->). by exists (String c p).
      * intros (p & Hp). destruct p as [|c' p].
        -- change (String c s = suf) in Hp. subst suf.
           cbn [String.length] in Hle. lia.
        -- injection Hp as -> ->. by exists p.
    + rewrite String.eqb_eq. split.
      * intros <-. by exists "".
      * intros (p & Hp). destruct p as [|c' p]; [done|].
        injection Hp as -> ->. rewrite string_length_app in Hgt. lia.
Qed.

Lemma lower_app (a b : string) : Py.lower (a +:+ b) = Py.lower a +:+ Py.lower b.
Proof. induction a as [|c a IH]; simpl; [done|by rewrite IH]. Qed.

Lemma lower_app_inv (s q t : string) :
  Py.lower s = q +:+ t ->
  exists p t', s = p +:+ t' /\ Py.lower p = q /\ Py.lower t' = t.
Proof.
  revert s. induction q as [|c q IH]; intros s H.
  - by exists "", s.
  - destruct s as [|a s]; [done|]. simpl in H. injection H as Hc Hs.
    destruct (IH s Hs) as (p & t' & -> & <- & <-).
    exists (String a p), t'. simpl. by rewrite Hc.
Qed.

Lemma lower_char_cases (a : ascii) :
  (Py.lower_char a = "."%char <-> a = "."%char)
  /\ (Py.lower_char a = "z"%char <-> a = "z"%char \/ a = "Z"%char)
  /\ (Py.lower_char a = "i"%char <-> a = "i"%char \/ a = "I"%char)
  /\ (Py.lower_char a = "p"%char <-> a = "p"%char \/ a = "P"%char).
Proof.
  destruct a as [[] [] [] [] [] [] [] []]; vm_compute;
    repeat split; intros; try discriminate; auto;
    repeat match goal with H : _ \/ _ |- _ => destruct H end;
    try discriminate; auto.
Qed.

(** X13. The names [upload_model] lets through are exactly those whose
    last four characters are a dot and the letters z, i, p, each in either
    case; so ".zip" alone passes, and "zip" or "a.zip.txt" do not. *)
Theorem zip_names_accepted (s : string) :
  Py.endswith (Py.lower s) ".zip" = true
  <-> exists p z i q,
        s = p +:+ String "." (String z (String i (String q "")))
        /\ (z = "z" \/ z = "Z")%char
        /\ (i = "i" \/ i = "I")%char
        /\ (q = "p" \/ q = "P")%char.
Proof.
  rewrite endswith_spec. split.
  - intros (p0 & H). apply lower_app_inv in H as (p & t & -> & _ & Ht).
    destruct t as [|a [|z [|i [|q [|x t]]]]]; try done.
    simpl in Ht. injection Ht as Ha Hz Hi Hq.
    destruct (lower_char_cases a) as (Ca & _).
    destruct (lower_char_cases z) as (_ & Cz & _).
    destruct (lower_char_cases i) as (_ & _ & Ci & _).
    destruct (lower_char_cases q) as (_ & _ & _ & Cq).
    apply Ca in Ha as ->. apply Cz in Hz. apply Ci in Hi. apply Cq in Hq.
    by exists p, z, i, q.
  - intros (p & z & i & q & -> & Hz & Hi & Hq).
    exists (Py.lower p). rewrite lower_app. f_equal. simpl.
    destruct (lower_char_cases z) as (_ & Cz & _).
    destruct (lower_char_cases i) as (_ & _ & Ci & _).
    destruct (lower_char_cases q) as (_ & _ & _ & Cq).
    apply Cz in Hz. apply Ci in Hi. apply Cq in Hq.
    by rewrite Hz, Hi, Hq.
Qed.

(** ** Nothing is lost, and never two active *)



Lemma active_records_after_first (t1 : Z) (d : Database) :
  active_records
    (Mongo.set_coll d "modelfile"
       (map (deactivate t1) (Mongo.coll d "modelfile")))
  = List.filter is_active (Mongo.coll d "modelconfig").
Proof.
  unfold active_records. rewrite coll_set_coll.
  rewrite coll_set_coll_ne by done. by rewrite no_active_after_deactivate.
Qed.

Lemma at_most_one_after_first (t1 : Z) (d : Database) :
  at_most_one_active (Some d) ->
  at_most_one_active
    (Some (Mongo.set_coll d "modelfile"
             (map (deactivate t1) (Mongo.coll d "modelfile")))).
Proof.
  unfold at_most_one_active. rewrite active_records_after_first.
  unfold active_records. rewrite length_app. lia.
Qed.

Lemma at_most_one_after_both (t1 t2 : Z) (d : Database) :
  at_most_one_active (Some (deactivate_all t1 t2 d)).
Proof.
  unfold at_most_one_active. rewrite active_records_deactivate_all. simpl. lia.
Qed.

Lemma at_most_one_after_insert (name : string) (data : pydict) (t1 t2 : Z)
    (d : Database) :
  name = "modelfile" \/ name = "modelconfig" ->
  data !! "active" = Some (VBool true) ->
  at_most_one_active (Some (inserted name data (deactivate_all t1 t2 d))).
Proof.
  intros Hn Ha. unfold at_most_one_active.
  by rewrite active_records_activated.
Qed.

Lemma upload_model_keeps_at_most_one (file : UploadFile) (w : World) :
  at_most_one_active (db w) ->
  at_most_one_active (db (snd (upload_model file w))).
Proof.
  destruct (upload_model file w) as [o w'] eqn:H. simpl.
  destruct w as [d0 clk rd flt lg]. simpl. intros Hinv. run_in H.
  destruct (Py.endswith _ _) eqn:Ez; run_in H;
    [|by injection H as _ <-].
  destruct (length (content file) =? 0)%nat eqn:El; run_in H;
    [by injection H as _ <-|].
  destruct (Z.of_nat (length (content file)) <? 0) eqn:Es; run_in H;
    [by injection H as _ <-|].
  destruct d0 as [d|]; run_in H; [|by injection H as _ <-].
  destruct (flt (length lg)) eqn:F0; run_in H; [by injection H as _ <-|].
  destruct (flt (S (length lg))) eqn:F1; run_in H.
  { injection H as _ <-. by apply at_most_one_after_first. }
  rewrite encodable_file in H. run_in H.
  destruct (flt (S (S (length lg)))) eqn:F2; run_in H.
  { injection H as _ <-. apply at_most_one_after_both. }
  injection H as _ <-.
  apply (at_most_one_after_insert "modelfile"); [by left|].
  by rewrite lookup_insert_ne.
Qed.

Lemma set_model_url_keeps_at_most_one HttpUrl (payload : UrlPayload)
    (w : World) :
  at_most_one_active (db w) ->
  at_most_one_active (db (snd (set_model_url HttpUrl payload w))).
Proof.
  destruct (set_model_url HttpUrl payload w) as [o w'] eqn:H. simpl.
  destruct w as [d0 clk rd flt lg]. simpl. intros Hinv. run_in H.
  destruct d0 as [d|]; run_in H; [|by injection H as _ <-].
  destruct (flt (length lg)) eqn:F0; run_in H; [by injection H as _ <-|].
  destruct (flt (S (length lg))) eqn:F1; run_in H.
  { injection H as _ <-. by apply at_most_one_after_first. }
  destruct (HttpUrl (url payload)) as [u|] eqn:Hu; run_in H.
  2: { injection H as _ <-. apply at_most_one_after_both. }
  rewrite not_encodable_cfg in H. run_in H.
  injection H as _ <-. apply at_most_one_after_both.
Qed.

Lemma respond_world {A} (enc : A -> content_t) (m : M A) (w : World) :
  snd (respond enc m w) = snd (m w).
Proof. unfold respond. by destruct (m w) as [[a|[]] w']. Qed.

Lemma serve_keeps_at_most_one HttpUrl (q : request) (w : World) :
  at_most_one_active (db w) -> at_most_one_active (db (serve HttpUrl q w)).
Proof.
  intros Hinv. destruct q as [file|json| |limit]; unfold serve.
  - unfold POST_api_models. rewrite respond_world.
    by apply upload_model_keeps_at_most_one.
  - unfold POST_api_models_url.
    destruct (parse_UrlPayload HttpUrl json) as [payload|]; [|done].
    rewrite respond_world. by apply set_model_url_keeps_at_most_one.
  - unfold GET_api_models_active. rewrite respond_world.
    by rewrite (proj1 (queries_leave (Some 10) w)).
  - unfold GET_api_models. rewrite respond_world.
    by rewrite (proj2 (queries_leave (Some (default 10 limit)) w)).
Qed.

(** X15. Served one after the other, requests never leave two active
    records: from a store with at most one active record, any sequence of
    uploads, URL registrations, get-active and list requests, accepted or
    rejected, with the store failing wherever it will, ends in a store with
    at most one active record.  (The inserts are made by
    [create_document].) *)
Theorem never_two_active HttpUrl (qs : list request) (w : World) :
  at_most_one_active (db w) ->
  at_most_one_active (db (foldl (fun w q => serve HttpUrl q w) w qs)).
Proof.
  revert w. induction qs as [|q qs IH]; intros w Hinv; simpl; [done|].
  apply IH. by apply serve_keeps_at_most_one.
Qed.

Lemma never_two_active_witness :
  (exists d, db Sample.w_busy = Some d /\ length (active_records d) = 1%nat)
  /\ at_most_one_active
       (db (foldl (fun w q => serve Sample.http_only q w) Sample.w_busy
              Sample.busy_day))
  /\ (exists d,
        db (foldl (fun w q => serve Sample.http_only q w) Sample.w_busy
              (take 2 Sample.busy_day)) = Some d
        /\ length (active_records d) = 0%nat
        /\ length (Mongo.coll d "modelfile") = 2%nat)
  /\ (exists d,
        db (foldl (fun w q => serve Sample.http_only q w) Sample.w_busy
              Sample.busy_day) = Some d
        /\ length (active_records d) = 1%nat
        /\ length (Mongo.coll d "modelfile") = 3%nat).
Proof.
  split; [|split; [|split]].
  - eexists. split; [reflexivity|]. vm_compute. reflexivity.
  - apply (never_two_active Sample.http_only). vm_compute. lia.
  - eexists. split; [vm_compute; reflexivity|].
    split; vm_compute; reflexivity.
  - eexists. split; [vm_compute; reflexivity|].
    split; vm_compute; reflexivity.
Defined.

(** ** Checks on concrete values *)

Example b64encode_Man :
  Base64.b64encode [Byte.x4d; Byte.x61; Byte.x6e] = "TWFu"%string.
Proof. reflexivity. Qed.

Example b64encode_Ma :
  Base64.b64encode [Byte.x4d; Byte.x61] = "TWE="%string.
Proof. reflexivity. Qed.

Example b64encode_M : Base64.b64encode [Byte.x4d] = "TQ=="%string.
Proof. reflexivity. Qed.

Example b64decode_ManM :
  Base64.b64decode "TWFuTQ==" = Some [Byte.x4d; Byte.x61; Byte.x6e; Byte.x4d].
Proof. reflexivity. Qed.

Example lower_then_endswith :
  Py.endswith (Py.lower "Model.ZIP") ".zip" = true
  /\ Py.endswith (Py.lower "zip") ".zip" = false
  /\ Py.endswith (Py.lower "model.zip.txt") ".zip" = false.
Proof. repeat split. Qed.

Example limit_or_10 :
  Py.or_int None 10 = 10 /\ Py.or_int (Some 0) 10 = 10
  /\ Py.or_int (Some 3) 10 = 3 /\ Py.or_int (Some (-2)) 10 = -2.
Proof. repeat split. Qed.

Example str_oid_255 : Mongo.str_oid 255 = "0000000000000000000000ff"%string.
Proof. vm_compute. reflexivity. Qed.

Example str_exn_http :
  str_exn (HTTPException 500 "Database not available")
  = "500: Database not available"%string.
Proof. vm_compute. reflexivity. Qed.
